(** * Database assistant chatbot: query executor, tool gateway, run orchestrator

    A shallow embedding of [src/database_manager.py] (class DatabaseManager)
    and [src/azure_agent_manager.py] (class AzureAgentManager), followed by
    the properties of the specification that concern them; then of
    [src/config.py] and of the chat page of [src/streamlit_app.py], with
    further properties of the code.

    The PostgreSQL driver (psycopg2) and the remote agent service (Azure AI
    Projects) are libraries outside the repository: they are taken as
    records of operations over an abstract world, each operation returning a
    value or raising.  Python code is written in a state-and-exception monad
    over that world, with try/except and the with-statement as combinators. *)

From Stdlib Require Import String Ascii List ZArith Lia Bool DecimalString.
From Stdlib Require Import Permutation.
Import ListNotations.
Local Open Scope string_scope.
Local Open Scope list_scope.
Local Set Warnings "-register-all".

(** ** Python strings

    A [string] is read as a Python [str] whose characters are the code points
    below 256.  [upper] and [strip] are exact on the code points below 128,
    where the two keywords of the allow-list live.  Above 127 [upper] keeps
    the character (Python maps a few of them outside this range); none of
    them can start either keyword, so the classification tests of
    [execute_query] read the same. *)

Module PyStr.

(** [str.isspace] on one character. *)
Definition isspace (c : ascii) : bool :=
  let n := nat_of_ascii c in
  ((9 <=? n) && (n <=? 13) || (28 <=? n) && (n <=? 32)
   || (n =? 133) || (n =? 160))%nat.

Definition upper_char (c : ascii) : ascii :=
  let n := nat_of_ascii c in
  if ((97 <=? n) && (n <=? 122))%nat then ascii_of_nat (n - 32) else c.

(** [s.upper()] *)
Fixpoint upper (s : string) : string :=
  match s with
  | EmptyString => EmptyString
  | String c r => String (upper_char c) (upper r)
  end.

(** [s.lstrip()] *)
Fixpoint lstrip (s : string) : string :=
  match s with
  | EmptyString => EmptyString
  | String c r => if isspace c then lstrip r else s
  end.

(** [s.rstrip()]: a character is dropped when it is a space and everything
    after it has been dropped. *)
Fixpoint rstrip (s : string) : string :=
  match s with
  | EmptyString => EmptyString
  | String c r =>
      match rstrip r with
      | EmptyString => if isspace c then EmptyString else String c EmptyString
      | r' => String c r'
      end
  end.

(** [s.strip()] *)
Definition strip (s : string) : string := rstrip (lstrip s).

(** [s.startswith(p)] *)
Definition startswith (s p : string) : bool := String.prefix p s.

(** [str(n)] for an int. *)
Definition of_int (n : Z) : string := NilZero.string_of_int (Z.to_int n).

(** [p in s] *)
Definition contains (s p : string) : Prop :=
  exists pre post, s = (pre ++ p ++ post)%string.

End PyStr.

(** ** Python values

    The values that travel through the gateway: what a row of the driver
    holds, what [json.loads] builds and what [json.dumps] prints.  Floats are
    left out.  [VObject] stands for any object [json.dumps] has no encoding
    for (a [Decimal], a [datetime], a [memoryview]), named by its class. *)

Inductive pyval : Type :=
| VNone
| VBool (b : bool)
| VInt (n : Z)
| VStr (s : string)
| VList (l : list pyval)
| VDict (d : list (string * pyval))
| VObject (cls : string).

(** A dict with string keys, in insertion order. *)
Definition pydict : Type := list (string * pyval).

Module PyDict.

(** [d.get(k)] *)
Fixpoint get (d : pydict) (k : string) : option pyval :=
  match d with
  | [] => None
  | (k', v) :: r => if String.eqb k' k then Some v else get r k
  end.

(** [d[k] = v]: an existing key keeps its place and takes the new value. *)
Fixpoint set (d : pydict) (k : string) (v : pyval) : pydict :=
  match d with
  | [] => [(k, v)]
  | (k', v') :: r =>
      if String.eqb k' k then (k', v) :: r else (k', v') :: set r k v
  end.

(** [dict(pairs)] *)
Definition of_pairs (pairs : list (string * pyval)) : pydict :=
  fold_left (fun d kv => set d (fst kv) (snd kv)) pairs [].

Definition keys (d : pydict) : list string := map fst d.

End PyDict.

(** [zip(xs, ys)] stops at the shorter argument. *)
Definition py_zip {A B} (xs : list A) (ys : list B) : list (A * B) :=
  combine xs ys.

(** ** Exceptions

    Only instances of [Exception] are modelled; each carries the text that
    [str(e)] gives.  [Psycopg2Error] is [psycopg2.Error] with its subclasses,
    [PyException] any other exception, with its class name. *)

Inductive exn : Type :=
| Psycopg2Error (msg : string)
| PyException (cls : string) (msg : string).

Definition exn_str (e : exn) : string :=
  match e with
  | Psycopg2Error msg => msg
  | PyException _ msg => msg
  end.

Definition res (A : Type) : Type := (exn + A)%type.

(** ** Calls observed at the two boundaries

    One event for each call on a library, and [EvRaised] for each exception
    raised, by a library or by Python itself. *)

Record ToolCall : Type := {
  tc_id : string;
  tc_name : string;          (* tool_call.function.name *)
  tc_arguments : string      (* tool_call.function.arguments *)
}.

Record ToolOutput : Type := {
  tool_call_id : string;
  output : string
}.

Inductive event : Type :=
| EvConnect (dsn : string)
| EvCursor
| EvExecute (query : pyval)
| EvFetchall
| EvCommit
| EvCursorExit
| EvConnExit (raised : bool)
| EvCreateThread
| EvCreateMessage (thread role content : string)
| EvCreateRun (thread assistant : string)
| EvSleep
| EvGetRun (thread run : string)
| EvSubmit (thread run : string) (outs : list ToolOutput)
| EvListMessages (thread : string)
| EvRaised (e : exn).

(** ** The monad: a world, the calls made so far, a value or an exception *)

Section Monad.

Context {W : Type}.

Record state : Type := { world : W; trace : list event }.

Definition M (A : Type) : Type := state -> res A * state.

Definition ret {A} (a : A) : M A := fun s => (inr a, s).

Definition log (ev : list event) (s : state) : state :=
  {| world := world s; trace := trace s ++ ev |}.

Definition raise {A} (e : exn) : M A := fun s => (inl e, log [EvRaised e] s).

Definition bind {A B} (m : M A) (f : A -> M B) : M B :=
  fun s =>
    match m s with
    | (inl e, s') => (inl e, s')
    | (inr a, s') => f a s'
    end.

(** A pure computation that may raise. *)
Definition lift {A} (r : res A) : M A :=
  match r with
  | inl e => raise e
  | inr a => ret a
  end.

Definition raised_by {A} (r : res A) : list event :=
  match r with
  | inl e => [EvRaised e]
  | inr _ => []
  end.

(** A call on a library: recorded, then answered by the library. *)
Definition call {A} (ev : event) (op : W -> res A * W) : M A :=
  fun s =>
    let (r, w') := op (world s) in
    (r, {| world := w'; trace := trace s ++ ev :: raised_by r |}).

(** Reading an attribute of a library object. *)
Definition read {A} (f : W -> A) : M A := fun s => (inr (f (world s)), s).

(** [try: body  except Exception as e: handler(e)] where the handler
    returns. *)
Definition try_except {A} (body : M A) (handler : exn -> A) : state -> A * state :=
  fun s =>
    match body s with
    | (inl e, s') => (handler e, s')
    | (inr a, s') => (a, s')
    end.

(** [with enter as x: body(x)].  [leave] is [__exit__], told whether the
    body raised; it does not swallow the exception, and an exception of its
    own replaces the outcome of the body. *)
Definition with_ {R A} (enter : M R) (leave : bool -> M unit) (body : R -> M A) : M A :=
  fun s =>
    match enter s with
    | (inl e, s1) => (inl e, s1)
    | (inr r, s1) =>
        match body r s1 with
        | (inl e, s2) =>
            match leave true s2 with
            | (inl e', s3) => (inl e', s3)
            | (inr _, s3) => (inl e, s3)
            end
        | (inr a, s2) =>
            match leave false s2 with
            | (inl e', s3) => (inl e', s3)
            | (inr _, s3) => (inr a, s3)
            end
        end
    end.

End Monad.

Arguments state : clear implicits.
Arguments M : clear implicits.

Declare Scope py_scope.
Delimit Scope py_scope with py.
Notation "x <- m ;; k" := (bind m (fun x => k))
  (at level 61, m at next level, right associativity) : py_scope.
Notation "m ;; k" := (bind m (fun _ => k))
  (at level 61, right associativity) : py_scope.
Local Open Scope py_scope.

(** ** Dynamic typing

    Python checks no annotation: a value reaches a [str] method or a slice
    as it is, and the operation raises when the value has no such
    operation. *)

Definition type_name (v : pyval) : string :=
  match v with
  | VNone => "NoneType"
  | VBool _ => "bool"
  | VInt _ => "int"
  | VStr _ => "str"
  | VList _ => "list"
  | VDict _ => "dict"
  | VObject cls => cls
  end.

Definition AttributeError (v : pyval) (attr : string) : exn :=
  PyException "AttributeError"
    ("'" ++ type_name v ++ "' object has no attribute '" ++ attr ++ "'")%string.

(** The receiver of a [str] method call [v.attr()]. *)
Definition as_str (v : pyval) (attr : string) : res string :=
  match v with
  | VStr s => inr s
  | _ => inl (AttributeError v attr)
  end.

(** ** src/database_manager.py

    The calls on [self.logger] are left out here and in the agent manager:
    they return nothing the code uses.  What a log line evaluates before the
    call ([query[:100]] in [db_call]) is kept. *)

(** The dictionary [execute_query] returns.  Five keys are always there;
    ["message"] is a key of the UPDATE result only ([None] here: no key). *)
Record QueryResult : Type := {
  success : bool;
  data : option (list pydict);
  row_count : Z;
  columns : option (list string);
  error : option string;
  message : option string
}.

(** What the code uses of psycopg2, over a world [W] that holds the store,
    the open connection and its cursor.  [pg_description] is
    [cursor.description] reduced to the names ([desc[0]]), [None] when the
    statement returned no rows set; [pg_conn_exit] is the connection's
    [__exit__] (commit when the block ended normally, rollback when it
    raised) and [pg_cursor_exit] the cursor's (close). *)
Record Engine (W : Type) : Type := {
  pg_connect : string -> W -> res unit * W;
  pg_cursor : W -> res unit * W;
  pg_execute : pyval -> W -> res unit * W;
  pg_fetchall : W -> res (list (list pyval)) * W;
  pg_description : W -> option (list string);
  pg_rowcount : W -> Z;
  pg_commit : W -> res unit * W;
  pg_cursor_exit : W -> res unit * W;
  pg_conn_exit : bool -> W -> res unit * W
}.

Arguments pg_connect {W}.
Arguments pg_cursor {W}.
Arguments pg_execute {W}.
Arguments pg_fetchall {W}.
Arguments pg_description {W}.
Arguments pg_rowcount {W}.
Arguments pg_commit {W}.
Arguments pg_cursor_exit {W}.
Arguments pg_conn_exit {W}.

Definition unsupported_msg : string :=
  "Unsupported query type. Only SELECT and UPDATE are allowed.".

(** The result of the three failure paths. *)
Definition failure (msg : string) : QueryResult :=
  {| success := false; data := None; row_count := 0; columns := None;
     error := Some msg; message := None |}.

Section DatabaseManager.

Context {W : Type}.
Variable E : Engine W.
Variable connection_string : string.

(** [query.strip().upper().startswith(kw)] *)
Definition leading_keyword (q kw : string) : bool :=
  PyStr.startswith (PyStr.upper (PyStr.strip q)) kw.

(** Lines 24-63: the body of the [try]. *)
Definition execute_query_body (query : pyval) : M W QueryResult :=
  with_ (call (EvConnect connection_string) (pg_connect E connection_string))
        (fun raised => call (EvConnExit raised) (pg_conn_exit E raised))
  (fun _ =>
  with_ (call EvCursor (pg_cursor E))
        (fun _ => call EvCursorExit (pg_cursor_exit E))
  (fun _ =>
    call (EvExecute query) (pg_execute E query);;
    q <- lift (as_str query "strip");;
    if leading_keyword q "SELECT" then
      rows <- call EvFetchall (pg_fetchall E);;
      description <- read (pg_description E);;
      columns <- match description with
                 | Some names => ret names
                 | None => raise (PyException "TypeError"
                                    "'NoneType' object is not iterable")
                 end;;
      let data := map (fun row => PyDict.of_pairs (py_zip columns row)) rows in
      ret {| success := true;
             data := Some data;
             row_count := Z.of_nat (length data);
             columns := Some columns;
             error := None;
             message := None |}
    else if leading_keyword q "UPDATE" then
      affected_rows <- read (pg_rowcount E);;
      call EvCommit (pg_commit E);;
      ret {| success := true;
             data := None;
             row_count := affected_rows;
             columns := None;
             error := None;
             message := Some ("Updated " ++ PyStr.of_int affected_rows
                                ++ " row(s)")%string |}
    else
      ret {| success := false;
             data := None;
             row_count := 0;
             columns := None;
             error := Some unsupported_msg;
             message := None |})).

(** Lines 65-82: the two handlers. *)
Definition execute_query_handler (e : exn) : QueryResult :=
  match e with
  | Psycopg2Error msg => failure msg
  | PyException _ msg => failure ("Unexpected error: " ++ msg)%string
  end.

Definition execute_query (query : pyval) : state W -> QueryResult * state W :=
  try_except (execute_query_body query) execute_query_handler.

End DatabaseManager.

(** ** json.dumps

    [json.dumps(obj)] with its defaults: [", "] and [": "] as separators,
    keys in insertion order, every character outside the printable ASCII
    range escaped.  An object without an encoding raises [TypeError]. *)

Module Json.

Definition dquote : string := String "034"%char EmptyString.
Definition backslash : string := String "092"%char EmptyString.

Definition hex_digit (n : nat) : ascii :=
  if (n <? 10)%nat then ascii_of_nat (48 + n) else ascii_of_nat (87 + n).

(** One character of [py_encode_basestring_ascii]. *)
Definition escape_char (c : ascii) : string :=
  let n := nat_of_ascii c in
  if (n =? 34)%nat then (backslash ++ dquote)%string
  else if (n =? 92)%nat then (backslash ++ backslash)%string
  else if (n =? 10)%nat then (backslash ++ "n")%string
  else if (n =? 13)%nat then (backslash ++ "r")%string
  else if (n =? 9)%nat then (backslash ++ "t")%string
  else if (n =? 8)%nat then (backslash ++ "b")%string
  else if (n =? 12)%nat then (backslash ++ "f")%string
  else if ((32 <=? n) && (n <=? 126))%nat then String c EmptyString
  else (backslash ++ "u00"
        ++ String (hex_digit (n / 16)) (String (hex_digit (n mod 16)) EmptyString))%string.

Fixpoint escape (s : string) : string :=
  match s with
  | EmptyString => EmptyString
  | String c r => (escape_char c ++ escape r)%string
  end.

Definition encode_str (s : string) : string :=
  (dquote ++ escape s ++ dquote)%string.

Definition not_serializable (cls : string) : exn :=
  PyException "TypeError"
    ("Object of type " ++ cls ++ " is not JSON serializable")%string.

(** The encodings of the elements of a sequence, up to the first that
    raises. *)
Definition encode_all {A} (encode : A -> res string) : list A -> res (list string) :=
  fix go (l : list A) : res (list string) :=
    match l with
    | [] => inr []
    | x :: r =>
        match encode x with
        | inl e => inl e
        | inr sx =>
            match go r with
            | inl e => inl e
            | inr sr => inr (sx :: sr)
            end
        end
    end.

Fixpoint dumps (v : pyval) : res string :=
  match v with
  | VNone => inr "null"
  | VBool b => inr (if b then "true" else "false")
  | VInt n => inr (PyStr.of_int n)
  | VStr s => inr (encode_str s)
  | VList l =>
      match encode_all dumps l with
      | inl e => inl e
      | inr parts => inr ("[" ++ String.concat ", " parts ++ "]")%string
      end
  | VDict d =>
      match encode_all
              (fun kv : string * pyval =>
                 match dumps (snd kv) with
                 | inl e => inl e
                 | inr sx => inr (encode_str (fst kv) ++ ": " ++ sx)%string
                 end) d with
      | inl e => inl e
      | inr parts => inr ("{" ++ String.concat ", " parts ++ "}")%string
      end
  | VObject cls => inl (not_serializable cls)
  end.

End Json.

Definition opt_to_py {A} (f : A -> pyval) (o : option A) : pyval :=
  match o with
  | Some a => f a
  | None => VNone
  end.

(** The result of [execute_query] as the Python dict it is, keys in the
    order of the dict display. *)
Definition result_to_py (r : QueryResult) : pyval :=
  VDict ([("success", VBool (success r));
          ("data", opt_to_py (fun rows => VList (map VDict rows)) (data r));
          ("row_count", VInt (row_count r));
          ("columns", opt_to_py (fun cs => VList (map VStr cs)) (columns r));
          ("error", opt_to_py VStr (error r))]
         ++ match message r with
            | Some m => [("message", VStr m)]
            | None => []
            end).

(** ** src/azure_agent_manager.py *)

(** [azure.ai.projects.models.RunStatus] *)
Inductive RunStatus : Type :=
| QUEUED | IN_PROGRESS | REQUIRES_ACTION | CANCELLING
| CANCELLED | FAILED | COMPLETED | EXPIRED.

Definition RunStatus_eqb (a b : RunStatus) : bool :=
  match a, b with
  | QUEUED, QUEUED | IN_PROGRESS, IN_PROGRESS
  | REQUIRES_ACTION, REQUIRES_ACTION | CANCELLING, CANCELLING
  | CANCELLED, CANCELLED | FAILED, FAILED
  | COMPLETED, COMPLETED | EXPIRED, EXPIRED => true
  | _, _ => false
  end.

(** A run as the code reads it: [run.id], [run.status] and
    [run.required_action.submit_tool_outputs.tool_calls] ([None] when the
    run carries no action). *)
Record ThreadRun : Type := {
  run_id : string;
  run_status : RunStatus;
  run_tool_calls : option (list ToolCall)
}.

Inductive MessageContent : Type :=
| MessageTextContent (value : string)
| MessageImageFileContent (file_id : string).

Record ThreadMessage : Type := {
  role : string;
  content : list MessageContent
}.

(** What the code uses of [project_client.agents], over the same world.
    [status_str] is how a status prints inside an f-string: [RunStatus] is
    an [Enum] that is also a [str], which Python formats as the name of the
    member ("RunStatus.FAILED") from 3.11 on and as its value ("failed")
    before. *)
Record AgentService (W : Type) : Type := {
  create_thread : W -> res string * W;
  create_message : string -> string -> string -> W -> res unit * W;
  create_run : string -> string -> pyval -> W -> res ThreadRun * W;
  get_run : string -> string -> W -> res ThreadRun * W;
  submit_tool_outputs_to_run :
    string -> string -> list ToolOutput -> W -> res ThreadRun * W;
  list_messages : string -> W -> res (list ThreadMessage) * W;
  status_str : RunStatus -> string
}.

Arguments create_thread {W}.
Arguments create_message {W}.
Arguments create_run {W}.
Arguments get_run {W}.
Arguments submit_tool_outputs_to_run {W}.
Arguments list_messages {W}.
Arguments status_str {W}.

Section AzureAgentManager.

Context {W : Type}.
Variable E : Engine W.
Variable connection_string : string.
Variable A : AgentService W.
(** [json.loads]: a text to a value, or [JSONDecodeError]. *)
Variable json_loads : string -> res pyval.
(** [self.master_agent.id], set once by [_initialize_agents]. *)
Variable master_agent_id : string.

(** [query[:100]], evaluated for the log line of [db_call]: a str or a list
    has a slice, any other value raises.  A dict takes the slice for a key
    and fails to hash it (up to Python 3.11; from 3.12 on a slice can be
    hashed and the dict raises KeyError for the missing key). *)
Definition slice100 (v : pyval) : res unit :=
  match v with
  | VStr _ | VList _ => inr tt
  | VDict _ => inl (PyException "TypeError" "unhashable type: 'slice'")
  | _ => inl (PyException "TypeError"
                ("'" ++ type_name v ++ "' object is not subscriptable")%string)
  end.

(** Lines 52-63 *)
Definition db_call (query : pyval) : M W QueryResult :=
  lift (slice100 query);;
  fun s =>
    let (result, s') := execute_query E connection_string query s in
    (inr result, s').

(** Lines 65-86 *)
Definition register_tools : pyval :=
  VList [VDict [
    ("type", VStr "function");
    ("function", VDict [
      ("name", VStr "db_call");
      ("description", VStr "Execute SQL queries on the PostgreSQL database");
      ("parameters", VDict [
        ("type", VStr "object");
        ("properties", VDict [
          ("query", VDict [
            ("type", VStr "string");
            ("description", VStr "The SQL query to execute")])]);
        ("required", VList [VStr "query"])])])]].

(** [args.get("query", "")] *)
Definition get_query (args : pyval) : res pyval :=
  match args with
  | VDict d =>
      match PyDict.get d "query" with
      | Some v => inr v
      | None => inr (VStr EmptyString)
      end
  | _ => inl (AttributeError args "get")
  end.

(** Lines 93-105: what the loop does with one request naming [db_call]. *)
Definition handle_db_call (tool_call : ToolCall) : M W ToolOutput :=
  args <- lift (json_loads (tc_arguments tool_call));;
  query <- lift (get_query args);;
  result <- db_call query;;
  out <- lift (Json.dumps (result_to_py result));;
  ret {| tool_call_id := tc_id tool_call; output := out |}.

(** Lines 92-105: the [for] loop, [tool_outputs] being the list built so
    far. *)
Fixpoint handle_tool_calls_loop (tool_calls : list ToolCall)
    (tool_outputs : list ToolOutput) : M W (list ToolOutput) :=
  match tool_calls with
  | [] => ret tool_outputs
  | tool_call :: rest =>
      if String.eqb (tc_name tool_call) "db_call" then
        out <- handle_db_call tool_call;;
        handle_tool_calls_loop rest (tool_outputs ++ [out])
      else
        handle_tool_calls_loop rest tool_outputs
  end.

(** Lines 88-107 *)
Definition _handle_tool_calls (tool_calls : list ToolCall) : M W (list ToolOutput) :=
  handle_tool_calls_loop tool_calls [].

(** The loop condition of line 139. *)
Definition active (st : RunStatus) : bool :=
  match st with
  | QUEUED | IN_PROGRESS | REQUIRES_ACTION => true
  | _ => false
  end.

(** [time.sleep(1)] *)
Definition sleep : M W unit := call EvSleep (fun w => (inr tt, w)).

(** Lines 140-152: one turn of the [while] loop. *)
Definition poll_once (thread_id : string) (run : ThreadRun) : M W ThreadRun :=
  sleep;;
  run <- call (EvGetRun thread_id (run_id run))
              (get_run A thread_id (run_id run));;
  if RunStatus_eqb (run_status run) REQUIRES_ACTION then
    tool_calls <- lift match run_tool_calls run with
                       | Some tcs => inr tcs
                       | None => inl (AttributeError VNone "submit_tool_outputs")
                       end;;
    tool_outputs <- _handle_tool_calls tool_calls;;
    call (EvSubmit thread_id (run_id run) tool_outputs)
         (submit_tool_outputs_to_run A thread_id (run_id run) tool_outputs)
  else
    ret run.

(** Lines 139-152: the [while] loop, cut after [fuel] turns.  [None] says
    the loop was still running when the fuel ran out; the loop of the source
    has no bound. *)
Fixpoint poll (fuel : nat) (thread_id : string) (run : ThreadRun)
    : M W (option ThreadRun) :=
  if active (run_status run) then
    match fuel with
    | O => ret None
    | S fuel' =>
        run' <- poll_once thread_id run;;
        poll fuel' thread_id run'
    end
  else ret (Some run).

(** [message.content[0].text.value] *)
Definition message_text (m : ThreadMessage) : res string :=
  match content m with
  | [] => inl (PyException "IndexError" "list index out of range")
  | MessageTextContent value :: _ => inr value
  | MessageImageFileContent _ :: _ =>
      inl (PyException "AttributeError"
             "'MessageImageFileContent' object has no attribute 'text'")
  end.

Definition no_response : string := "No response received from agent".

(** Lines 159-163: the first message of the listing whose role is
    ["assistant"]. *)
Fixpoint latest_assistant_text (messages : list ThreadMessage) : res string :=
  match messages with
  | [] => inr no_response
  | m :: rest =>
      if String.eqb (role m) "assistant" then message_text m
      else latest_assistant_text rest
  end.

(** Lines 154-165 *)
Definition final_answer (thread_id : string) (run : ThreadRun) : M W string :=
  if RunStatus_eqb (run_status run) COMPLETED then
    messages <- call (EvListMessages thread_id) (list_messages A thread_id);;
    lift (latest_assistant_text messages)
  else
    ret ("Run failed with status: " ++ status_str A (run_status run))%string.

(** Lines 120-165: the body of the [try]. *)
Definition chat_body (fuel : nat) (user_message : string) : M W (option string) :=
  thread_id <- call EvCreateThread (create_thread A);;
  call (EvCreateMessage thread_id "user" user_message)
       (create_message A thread_id "user" user_message);;
  let tools := register_tools in
  run <- call (EvCreateRun thread_id master_agent_id)
              (create_run A thread_id master_agent_id tools);;
  polled <- poll fuel thread_id run;;
  match polled with
  | None => ret None
  | Some run =>
      answer <- final_answer thread_id run;;
      ret (Some answer)
  end.

(** Lines 109-169.  The value is [Some] of the string returned, or [None]
    when the loop of line 139 has not ended within [fuel] turns. *)
Definition chat_with_master_agent (fuel : nat) (user_message : string)
    : state W -> option string * state W :=
  try_except (chat_body fuel user_message)
             (fun e => Some ("Error: " ++ exn_str e)%string).

End AzureAgentManager.

(** ** Instances for the examples

    A reader of JSON texts, a store with one table behind the driver's
    interface, and a scripted agent service.  The theorems below hold for
    every engine, service and reader; these instances run them. *)

Module Sample.

(** *** A JSON reader

    [loads] reads the JSON texts whose numbers are integers and whose
    characters are below 256: the texts tool arguments are made of.  The
    text of its [JSONDecodeError] names the failure without the position
    Python adds. *)

Definition JSONDecodeError (msg : string) : exn := PyException "JSONDecodeError" msg.

Definition is_ws (c : ascii) : bool :=
  let n := nat_of_ascii c in
  ((n =? 32) || (n =? 9) || (n =? 10) || (n =? 13))%nat.

Fixpoint skip_ws (s : string) : string :=
  match s with
  | String c r => if is_ws c then skip_ws r else s
  | EmptyString => EmptyString
  end.

Definition is_digit (c : ascii) : bool :=
  let n := nat_of_ascii c in ((48 <=? n) && (n <=? 57))%nat.

Definition digit_val (c : ascii) : Z := Z.of_nat (nat_of_ascii c - 48).

(** The digits at the head of [s], read after [acc]. *)
Fixpoint digits (s : string) (acc : Z) : Z * string :=
  match s with
  | String c r => if is_digit c then digits r (10 * acc + digit_val c)%Z else (acc, s)
  | EmptyString => (acc, s)
  end.

(** A number may not go on with a fraction or an exponent. *)
Definition ends_number (s : string) : bool :=
  match s with
  | String c _ => negb (Ascii.eqb c "." || Ascii.eqb c "e" || Ascii.eqb c "E")
  | EmptyString => true
  end.

Definition natural (s : string) : option (Z * string) :=
  match s with
  | String c r =>
      if Ascii.eqb c "0" then if ends_number r then Some (0%Z, r) else None
      else if is_digit c then
        let (n, rest) := digits s 0 in
        if ends_number rest then Some (n, rest) else None
      else None
  | EmptyString => None
  end.

Definition hex_val (c : ascii) : option nat :=
  let n := nat_of_ascii c in
  if ((48 <=? n) && (n <=? 57))%nat then Some (n - 48)%nat
  else if ((97 <=? n) && (n <=? 102))%nat then Some (n - 87)%nat
  else if ((65 <=? n) && (n <=? 70))%nat then Some (n - 55)%nat
  else None.

(** The characters of a string literal, after its opening quote. *)
Fixpoint chars (s : string) : option (string * string) :=
  match s with
  | EmptyString => None
  | String c r =>
      if Ascii.eqb c "034" then Some (EmptyString, r)
      else if Ascii.eqb c "092" then
        match r with
        | String e r' =>
            let continue (c' : ascii) (rest : string) :=
              match chars rest with
              | Some (t, rest') => Some (String c' t, rest')
              | None => None
              end in
            if Ascii.eqb e "034" then continue "034"%char r'
            else if Ascii.eqb e "092" then continue "092"%char r'
            else if Ascii.eqb e "/" then continue "/"%char r'
            else if Ascii.eqb e "b" then continue "008"%char r'
            else if Ascii.eqb e "f" then continue "012"%char r'
            else if Ascii.eqb e "n" then continue "010"%char r'
            else if Ascii.eqb e "r" then continue "013"%char r'
            else if Ascii.eqb e "t" then continue "009"%char r'
            else if Ascii.eqb e "u" then
              match r' with
              | String "0" (String "0" (String h (String l r''))) =>
                  match hex_val h, hex_val l with
                  | Some a, Some b => continue (ascii_of_nat (16 * a + b)) r''
                  | _, _ => None
                  end
              | _ => None
              end
            else None
        | EmptyString => None
        end
      else if (nat_of_ascii c <? 32)%nat then None
      else
        match chars r with
        | Some (t, rest) => Some (String c t, rest)
        | None => None
        end
  end.

Fixpoint value (fuel : nat) (s : string) : option (pyval * string) :=
  match fuel with
  | O => None
  | S fuel' =>
      match skip_ws s with
      | String "n" (String "u" (String "l" (String "l" r))) => Some (VNone, r)
      | String "t" (String "r" (String "u" (String "e" r))) => Some (VBool true, r)
      | String "f" (String "a" (String "l" (String "s" (String "e" r)))) =>
          Some (VBool false, r)
      | String "034" r =>
          match chars r with
          | Some (t, rest) => Some (VStr t, rest)
          | None => None
          end
      | String "-" r =>
          match natural r with
          | Some (n, rest) => Some (VInt (- n), rest)
          | None => None
          end
      | String "[" r =>
          match skip_ws r with
          | String "]" rest => Some (VList [], rest)
          | _ => elements fuel' r []
          end
      | String "{" r =>
          match skip_ws r with
          | String "}" rest => Some (VDict [], rest)
          | _ => members fuel' r []
          end
      | other =>
          match natural other with
          | Some (n, rest) => Some (VInt n, rest)
          | None => None
          end
      end
  end

with elements (fuel : nat) (s : string) (acc : list pyval) : option (pyval * string) :=
  match fuel with
  | O => None
  | S fuel' =>
      match value fuel' s with
      | Some (v, rest) =>
          match skip_ws rest with
          | String "," rest' => elements fuel' rest' (acc ++ [v])
          | String "]" rest' => Some (VList (acc ++ [v]), rest')
          | _ => None
          end
      | None => None
      end
  end

with members (fuel : nat) (s : string) (acc : pydict) : option (pyval * string) :=
  match fuel with
  | O => None
  | S fuel' =>
      match skip_ws s with
      | String "034" r =>
          match chars r with
          | Some (k, rest) =>
              match skip_ws rest with
              | String ":" rest' =>
                  match value fuel' rest' with
                  | Some (v, rest'') =>
                      match skip_ws rest'' with
                      | String "," rest3 => members fuel' rest3 (PyDict.set acc k v)
                      | String "}" rest3 => Some (VDict (PyDict.set acc k v), rest3)
                      | _ => None
                      end
                  | None => None
                  end
              | _ => None
              end
          | None => None
          end
      | _ => None
      end
  end.

(** [json.loads(s)] *)
Definition loads (s : string) : res pyval :=
  match value (2 * String.length s + 2) s with
  | Some (v, rest) =>
      match skip_ws rest with
      | EmptyString => inr v
      | _ => inl (JSONDecodeError "Extra data")
      end
  | None => inl (JSONDecodeError "Expecting value")
  end.

(** [{"query": q}] as the service writes it. *)
Definition query_args (q : string) : string :=
  ("{" ++ Json.encode_str "query" ++ ": " ++ Json.encode_str q ++ "}")%string.

(** *** A store with one table, [users(id, name)]

    The driver's transaction rules: statements work on the open
    transaction, [commit] publishes it, [rollback] drops it.  The engine
    knows four statements and rejects the rest as PostgreSQL would. *)

Definition table : Type := list (Z * string).

Record sim : Type := {
  db_up : bool;                   (* does the server accept connections *)
  committed : table;              (* the table as stored *)
  working : table;                (* the table inside the transaction *)
  result_set : option table;      (* the rows the cursor holds *)
  rowcount : Z;                   (* cursor.rowcount *)
  script : list ThreadRun;        (* the answers of the service, in order *)
  last_run : ThreadRun;           (* its answer once the script is over *)
  messages : list ThreadMessage   (* the thread, newest first *)
}.

Definition set_db (w : sim) (c wk : table) (rs : option table) (n : Z) : sim :=
  {| db_up := db_up w; committed := c; working := wk; result_set := rs;
     rowcount := n; script := script w; last_run := last_run w;
     messages := messages w |}.

(** A row as the cursor hands it out. *)
Definition row_of (u : Z * string) : list pyval := [VInt (fst u); VStr (snd u)].

Definition select_users : string := "SELECT id, name FROM users".
Definition update_users : string := "UPDATE users SET name = 'x'".
Definition delete_users : string := "DELETE FROM users".

(** [bool(v)]; an object of another class counts as true. *)
Definition truth (v : pyval) : bool :=
  match v with
  | VNone => false
  | VBool b => b
  | VInt n => negb (n =? 0)%Z
  | VStr s => negb (String.eqb s EmptyString)
  | VList l => negb (Nat.eqb (length l) 0)
  | VDict d => negb (Nat.eqb (length d) 0)
  | VObject _ => true
  end.

(** The driver refuses a statement that is false ("", None, []) before it
    looks at its type. *)
Definition execute (query : pyval) (w : sim) : res unit * sim :=
  match query with
  | VStr q =>
      let n := Z.of_nat (length (working w)) in
      if String.eqb q select_users then
        (inr tt, set_db w (committed w) (working w) (Some (working w)) n)
      else if String.eqb q update_users then
        (inr tt, set_db w (committed w)
                   (map (fun u => (fst u, "x")) (working w)) None n)
      else if String.eqb q delete_users then
        (inr tt, set_db w (committed w) [] None n)
      else if String.eqb q EmptyString then
        (inl (Psycopg2Error "can't execute an empty query"), w)
      else
        (inl (Psycopg2Error "syntax error"), w)
  | _ =>
      if truth query then
        (inl (PyException "TypeError"
                ("argument 1 must be a string or unicode object: got "
                 ++ type_name query ++ " instead")%string), w)
      else
        (inl (Psycopg2Error "can't execute an empty query"), w)
  end.

Definition engine : Engine sim := {|
  pg_connect := fun _ w =>
    if db_up w then (inr tt, set_db w (committed w) (committed w) None (-1))
    else (inl (Psycopg2Error "connection refused"), w);
  pg_cursor := fun w => (inr tt, w);
  pg_execute := execute;
  pg_fetchall := fun w =>
    match result_set w with
    | Some rows => (inr (map row_of rows), w)
    | None => (inl (Psycopg2Error "no results to fetch"), w)
    end;
  pg_description := fun w =>
    match result_set w with
    | Some _ => Some ["id"; "name"]
    | None => None
    end;
  pg_rowcount := rowcount;
  pg_commit := fun w =>
    (inr tt, set_db w (working w) (working w) (result_set w) (rowcount w));
  pg_cursor_exit := fun w => (inr tt, w);
  pg_conn_exit := fun raised w =>
    if raised
    then (inr tt, set_db w (committed w) (committed w) (result_set w) (rowcount w))
    else (inr tt, set_db w (working w) (working w) (result_set w) (rowcount w))
|}.

(** *** A scripted agent service

    Every call that returns a run takes the next run of the script. *)

Definition next_run (w : sim) : res ThreadRun * sim :=
  match script w with
  | r :: rest =>
      (inr r, {| db_up := db_up w; committed := committed w; working := working w;
                 result_set := result_set w; rowcount := rowcount w;
                 script := rest; last_run := last_run w; messages := messages w |})
  | [] => (inr (last_run w), w)
  end.

Definition service : AgentService sim := {|
  create_thread := fun w => (inr "thread_1", w);
  create_message := fun _ _ _ w => (inr tt, w);
  create_run := fun _ _ _ w => next_run w;
  get_run := fun _ _ w => next_run w;
  submit_tool_outputs_to_run := fun _ _ _ w => next_run w;
  list_messages := fun _ w => (inr (messages w), w);
  status_str := fun st =>
    match st with
    | QUEUED => "RunStatus.QUEUED" | IN_PROGRESS => "RunStatus.IN_PROGRESS"
    | REQUIRES_ACTION => "RunStatus.REQUIRES_ACTION"
    | CANCELLING => "RunStatus.CANCELLING"
    | CANCELLED => "RunStatus.CANCELLED" | FAILED => "RunStatus.FAILED"
    | COMPLETED => "RunStatus.COMPLETED" | EXPIRED => "RunStatus.EXPIRED"
    end
|}.

Definition run_in (st : RunStatus) : ThreadRun :=
  {| run_id := "run_1"; run_status := st; run_tool_calls := None |}.

Definition run_asking (tcs : list ToolCall) : ThreadRun :=
  {| run_id := "run_1"; run_status := REQUIRES_ACTION; run_tool_calls := Some tcs |}.

Definition users : table := [(1%Z, "ada"); (2%Z, "bob")].

(** A world with two users, a running server, and the given script. *)
Definition world0 (runs : list ThreadRun) (last : ThreadRun)
    (msgs : list ThreadMessage) : sim :=
  {| db_up := true; committed := users; working := []; result_set := None;
     rowcount := (-1); script := runs; last_run := last; messages := msgs |}.

Definition start (w : sim) : state sim := {| world := w; trace := [] |}.

(** The database alone. *)
Definition db0 : state sim := start (world0 [] (run_in COMPLETED) []).

(** [execute_query] on the sample store. *)
Definition run_query (q : string) : QueryResult * state sim :=
  execute_query engine "dsn" (VStr q) db0.

(** *** Requests *)

Definition call_select : ToolCall :=
  {| tc_id := "call_1"; tc_name := "db_call";
     tc_arguments := query_args select_users |}.

Definition call_other : ToolCall :=
  {| tc_id := "call_2"; tc_name := "web_search"; tc_arguments := "{}" |}.

Definition call_no_query : ToolCall :=
  {| tc_id := "call_3"; tc_name := "db_call"; tc_arguments := "{}" |}.


Definition call_cut_short : ToolCall :=
  {| tc_id := "call_5"; tc_name := "db_call"; tc_arguments := "{" |}.

(** *** Scripts *)

Definition thread_42 : list ThreadMessage :=
  [{| role := "assistant"; content := [MessageTextContent "42"] |};
   {| role := "user"; content := [MessageTextContent "test"] |}].

(** queued, then requires-action with one request, then completed. *)
Definition answered : state sim :=
  start (world0 [run_in QUEUED; run_asking [call_select]; run_in IN_PROGRESS;
                 run_in COMPLETED]
                (run_in COMPLETED) thread_42).

(** A run that fails. *)
Definition failing : state sim :=
  start (world0 [run_in QUEUED; run_in FAILED] (run_in FAILED) []).


(** A run in requires-action with the given requests, about to be fetched. *)
Definition asking (tcs : list ToolCall) : state sim :=
  start (world0 [run_asking tcs] (run_in COMPLETED) []).

(** The gateway and the orchestrator over the sample instances. *)
Definition handle : list ToolCall -> M sim (list ToolOutput) :=
  _handle_tool_calls engine "dsn" loads.

Definition chat : nat -> string -> state sim -> option string * state sim :=
  chat_with_master_agent engine "dsn" service loads "agent_1".

End Sample.

(** ** src/config.py *)

(** [os.environ]: the variables that are set, with their values. *)
Definition environ : Type := string -> option string.

(** A value that is a str or [None] inside an f-string. *)
Definition fstr (v : option string) : string :=
  match v with
  | Some s => s
  | None => "None"
  end.

Module Config.

(** [os.getenv(key)] *)
Definition getenv (env : environ) (key : string) : option string := env key.

(** [os.getenv(key, default)]: the default stands in for a variable that is
    not set, not for one that is set and empty. *)
Definition getenv_or (env : environ) (key default : string) : option string :=
  match env key with
  | Some v => Some v
  | None => Some default
  end.

(** The dataclass.  The fields are annotated [str]; [from_env] fills some of
    them with [None]. *)
Record AzureConfig : Type := {
  project_connection_string : option string;
  master_agent_name : option string;
  query_agent_name : option string;
  db_host : option string;
  db_port : option string;
  db_name : option string;
  db_user : option string;
  db_password : option string
}.

(** Lines 21-33 *)
Definition from_env (env : environ) : AzureConfig := {|
  project_connection_string := getenv env "AZURE_AI_PROJECT_CONNECTION_STRING";
  master_agent_name := getenv_or env "MASTER_AGENT_NAME" "master-agent";
  query_agent_name := getenv_or env "QUERY_AGENT_NAME" "query-agent";
  db_host := getenv_or env "DB_HOST" "localhost";
  db_port := getenv_or env "DB_PORT" "5432";
  db_name := getenv env "DB_NAME";
  db_user := getenv env "DB_USER";
  db_password := getenv env "DB_PASSWORD"
|}.

(** Lines 35-37 *)
Definition get_db_connection_string (self : AzureConfig) : string :=
  ("postgresql://" ++ fstr (db_user self) ++ ":" ++ fstr (db_password self)
   ++ "@" ++ fstr (db_host self) ++ ":" ++ fstr (db_port self)
   ++ "/" ++ fstr (db_name self))%string.

End Config.

(** src/database_manager.py, lines 89-94: the connection string the module
    builds when it is run as a script. *)
Definition main_connection_string (env : environ) : string :=
  let db_host := Config.getenv env "DB_HOST" in
  let db_port := Config.getenv env "DB_PORT" in
  let db_name := Config.getenv env "DB_NAME" in
  let db_user := Config.getenv env "DB_USER" in
  let db_pass := Config.getenv env "DB_PASSWORD" in
  ("postgresql://" ++ fstr db_user ++ ":" ++ fstr db_pass
   ++ "@" ++ fstr db_host ++ ":" ++ fstr db_port ++ "/" ++ fstr db_name)%string.

(** ** src/azure_agent_manager.py, the agents of the manager *)

(** An agent of the listing: [agent.id] and [agent.name], which the service
    leaves [None] for an agent without a name. *)
Record Agent : Type := {
  agent_id : string;
  agent_name : option string
}.

(** [a == b] on values that are a str or [None]. *)
Definition name_eqb (a b : option string) : bool :=
  match a, b with
  | Some x, Some y => String.eqb x y
  | None, None => true
  | _, _ => false
  end.

Section AgentDirectory.

Context {W : Type}.
(** [self.project_client.agents.list_agents()], read through [.data]. *)
Variable list_agents : W -> res (list Agent) * W.
Variable config : Config.AzureConfig.

(** A call on a library that the traces keep no event for. *)
Definition ask {A} (op : W -> res A * W) : M W A :=
  fun s =>
    let (r, w') := op (world s) in
    (r, {| world := w'; trace := trace s ++ raised_by r |}).

(** Lines 35-39: the loop, [master] and [query] being [self.master_agent]
    and [self.query_agent] so far. *)
Fixpoint find_agents (agents : list Agent) (master query : option Agent)
    : option Agent * option Agent :=
  match agents with
  | [] => (master, query)
  | agent :: rest =>
      if name_eqb (agent_name agent) (Config.master_agent_name config) then
        find_agents rest (Some agent) query
      else if name_eqb (agent_name agent) (Config.query_agent_name config) then
        find_agents rest master (Some agent)
      else
        find_agents rest master query
  end.

Definition not_found (role : string) (name : option string) : exn :=
  PyException "ValueError" (role ++ " agent '" ++ fstr name ++ "' not found")%string.

(** Lines 28-50.  The value is the pair of [self.master_agent] and
    [self.query_agent]; both are [None] before the loop.  The handler of
    line 48 logs the exception and raises it again. *)
Definition _initialize_agents : M W (Agent * Agent) :=
  agents <- ask list_agents;;
  let (master_agent, query_agent) := find_agents agents None None in
  match master_agent with
  | None => raise (not_found "Master" (Config.master_agent_name config))
  | Some master =>
      match query_agent with
      | None => raise (not_found "Query" (Config.query_agent_name config))
      | Some query => ret (master, query)
      end
  end.

End AgentDirectory.

(** ** More instances for the examples *)

Module Demo.

(** An environment with the database variables of a local setup. *)
Definition env_local : environ := fun key =>
  if String.eqb key "DB_HOST" then Some "db.internal"
  else if String.eqb key "DB_PORT" then Some "6543"
  else if String.eqb key "DB_NAME" then Some "estate"
  else if String.eqb key "DB_USER" then Some "app"
  else if String.eqb key "DB_PASSWORD" then Some "s3cret"
  else None.

Definition agent (id name : string) : Agent :=
  {| agent_id := id; agent_name := Some name |}.

(** A listing with the two default names, one of them twice. *)
Definition roster : list Agent :=
  [agent "asst_1" "query-agent"; agent "asst_2" "master-agent";
   agent "asst_3" "helper"; agent "asst_4" "master-agent"].

Definition list_roster (w : Sample.sim) : res (list Agent) * Sample.sim :=
  (inr roster, w).

(** The configuration of an empty environment, and one whose two agent
    names are the same. *)
Definition config_default : Config.AzureConfig := Config.from_env (fun _ => None).

Definition config_same_names : Config.AzureConfig :=
  Config.from_env (fun key =>
    if String.eqb key "QUERY_AGENT_NAME" then Some "master-agent" else None).

(** A thread whose latest message of the assistant starts with an image,
    and one whose latest message of the assistant has no content. *)
Definition thread_image : list ThreadMessage :=
  [{| role := "assistant";
      content := [MessageImageFileContent "file_1"; MessageTextContent "see the chart"] |};
   {| role := "user"; content := [MessageTextContent "test"] |}].

Definition thread_blank : list ThreadMessage :=
  [{| role := "assistant"; content := [] |};
   {| role := "user"; content := [MessageTextContent "test"] |}].

(** A run that completes at once, over the given thread. *)
Definition completed (msgs : list ThreadMessage) : state Sample.sim :=
  Sample.start (Sample.world0 [Sample.run_in QUEUED; Sample.run_in COMPLETED]
                  (Sample.run_in COMPLETED) msgs).

End Demo.

(** ** More notions the statements use *)

(** The character [c] occurs in [s]. *)
Fixpoint has_char (c : ascii) (s : string) : bool :=
  match s with
  | EmptyString => false
  | String c' r => Ascii.eqb c' c || has_char c r
  end.

(** The agent carries the name [n]. *)
Definition named (n : option string) (a : Agent) : bool :=
  name_eqb (agent_name a) n.

(** The last agent of a listing that carries the name [n]. *)
Definition last_named (n : option string) (agents : list Agent) : option Agent :=
  find (named n) (rev agents).

(** The value a row holds for the name [c]: that of the last column of the
    name. *)
Fixpoint last_value (cols : list string) (row : list pyval) (c : string)
    : option pyval :=
  match cols, row with
  | c' :: cols', v :: row' =>
      match last_value cols' row' c with
      | Some x => Some x
      | None => if String.eqb c' c then Some v else None
      end
  | _, _ => None
  end.

(** The names of a list, each once. *)
Definition distinct (cols : list string) : list string :=
  nodup String.string_dec cols.

(** ** src/streamlit_app.py (class ChatbotApp)

    Streamlit is a library outside the repository: each of its calls is an
    operation over the world that returns or raises, and the calls made on
    it are kept in a list of their own, [screen].  [st.session_state] holds
    the two keys the application sets.  The application can wait for an
    answer for ever (the loop of [chat_with_master_agent]): a computation
    gives [None] when a turn has not come back within the given number of
    rounds of that loop. *)

(** An entry of [st.session_state.messages]:
    [{"role": ..., "content": ...}]. *)
Record ChatMessage : Type := { chat_role : string; chat_content : string }.

(** [st.session_state]: each of the two keys is set or is not. *)
Record SessionState : Type := {
  ss_messages : option (list ChatMessage);
  ss_user_input : option string
}.

(** The calls on Streamlit, [UiChatMessage] and [UiSpinner] for entering
    the context manager, the two exits for leaving it. *)
Inductive ui_call : Type :=
| UiTitle (body : string)
| UiChatMessage (name : string)
| UiChatMessageExit
| UiSpinner (text : string)
| UiSpinnerExit
| UiMarkdown (body : string)
| UiError (body : string)
| UiChatInput (placeholder : string).

Record Streamlit (W : Type) : Type := {
  st_title : string -> W -> res unit * W;
  st_chat_message : string -> W -> res unit * W;
  st_chat_message_exit : W -> res unit * W;
  st_spinner : string -> W -> res unit * W;
  st_spinner_exit : W -> res unit * W;
  st_markdown : string -> W -> res unit * W;
  st_error : string -> W -> res unit * W;
  (** [st.chat_input]: the text the user sent, or None *)
  st_chat_input : string -> W -> res (option string) * W;
  (** the text of the AttributeError for a key that is not set *)
  st_missing : string -> string
}.

Arguments st_title {W}.
Arguments st_chat_message {W}.
Arguments st_chat_message_exit {W}.
Arguments st_spinner {W}.
Arguments st_spinner_exit {W}.
Arguments st_markdown {W}.
Arguments st_error {W}.
Arguments st_chat_input {W}.
Arguments st_missing {W}.

Definition set_messages (ms : list ChatMessage) (ss : SessionState) : SessionState :=
  {| ss_messages := Some ms; ss_user_input := ss_user_input ss |}.

Definition set_user_input (u : string) (ss : SessionState) : SessionState :=
  {| ss_messages := ss_messages ss; ss_user_input := Some u |}.

(** The truth value of a str. *)
Definition truthy (s : string) : bool :=
  match s with
  | EmptyString => false
  | String _ _ => true
  end.

Declare Scope app_scope.
Delimit Scope app_scope with app.

Section ChatbotApp.

Context {W : Type}.
Variable E : Engine W.
Variable connection_string : string.
Variable A : AgentService W.
Variable json_loads : string -> res pyval.
Variable master_agent_id : string.
Variable St : Streamlit W.

(** The session, the calls made on Streamlit so far, and the libraries of
    the two managers. *)
Record app_state : Type := {
  session : SessionState;
  screen : list ui_call;
  lib : state W
}.

Definition App (X : Type) : Type := app_state -> option (res X * app_state).

Definition app_ret {X} (x : X) : App X := fun a => Some (inr x, a).

Definition app_bind {X Y} (m : App X) (f : X -> App Y) : App Y :=
  fun a =>
    match m a with
    | None => None
    | Some (inl e, a') => Some (inl e, a')
    | Some (inr x, a') => f x a'
    end.

Notation "x <- m ;; k" := (app_bind m (fun x => k))
  (at level 61, m at next level, right associativity) : app_scope.
Notation "m ;; k" := (app_bind m (fun _ => k))
  (at level 61, right associativity) : app_scope.
Local Open Scope app_scope.

(** A call on Streamlit: recorded, then answered by the library. *)
Definition ui {X} (c : ui_call) (op : W -> res X * W) : App X :=
  fun a =>
    let (r, w') := op (world (lib a)) in
    Some (r, {| session := session a; screen := screen a ++ [c];
                lib := {| world := w'; trace := trace (lib a) |} |}).

(** A method of a manager, which works on the libraries alone. *)
Definition on_lib {X} (m : state W -> option X * state W) : App X :=
  fun a =>
    let (r, l') := m (lib a) in
    match r with
    | None => None
    | Some x => Some (inr x, {| session := session a; screen := screen a;
                                lib := l' |})
    end.

(** [st.session_state.<key>], read. *)
Definition session_attr {X} (key : string) (get : SessionState -> option X) : App X :=
  fun a =>
    match get (session a) with
    | Some x => Some (inr x, a)
    | None => Some (inl (PyException "AttributeError" (st_missing St key)), a)
    end.

Definition update_session (f : SessionState -> SessionState) : App unit :=
  fun a => Some (inr tt, {| session := f (session a); screen := screen a;
                            lib := lib a |}).

(** [try: body  except Exception as e: handler(e)] *)
Definition app_try {X} (body : App X) (handler : exn -> App X) : App X :=
  fun a =>
    match body a with
    | None => None
    | Some (inl e, a') => handler e a'
    | Some (inr x, a') => Some (inr x, a')
    end.

(** [with enter: body].  [leave] is [__exit__]; neither of the two context
    managers of Streamlit swallows the exception of the body, and an
    exception of its own replaces the outcome of the body. *)
Definition app_with {X} (enter leave : App unit) (body : App X) : App X :=
  fun a =>
    match enter a with
    | None => None
    | Some (inl e, a1) => Some (inl e, a1)
    | Some (inr _, a1) =>
        match body a1 with
        | None => None
        | Some (inl e, a2) =>
            match leave a2 with
            | None => None
            | Some (inl e', a3) => Some (inl e', a3)
            | Some (inr _, a3) => Some (inl e, a3)
            end
        | Some (inr x, a2) =>
            match leave a2 with
            | None => None
            | Some (inl e', a3) => Some (inl e', a3)
            | Some (inr _, a3) => Some (inr x, a3)
            end
        end
    end.

(** [with st.chat_message(name): body] *)
Definition in_chat_message {X} (name : string) (body : App X) : App X :=
  app_with (ui (UiChatMessage name) (st_chat_message St name))
           (ui UiChatMessageExit (st_chat_message_exit St))
           body.

(** [with st.spinner(text): body] *)
Definition in_spinner {X} (text : string) (body : App X) : App X :=
  app_with (ui (UiSpinner text) (st_spinner St text))
           (ui UiSpinnerExit (st_spinner_exit St))
           body.

Definition markdown (body : string) : App unit :=
  ui (UiMarkdown body) (st_markdown St body).

(** [st.session_state.messages.append(m)] *)
Definition append_message (m : ChatMessage) : App unit :=
  ms <- session_attr "messages" ss_messages;;
  update_session (set_messages (ms ++ [m])).

Definition greeting : string :=
  "Hello! I'm your Real Estate Database Assistant. I can help you query property data, user information, sales records, and more. What would you like to know?".

(** Lines 75-86, on the session. *)
Definition initialized (ss : SessionState) : SessionState :=
  let ss1 :=
    match ss_messages ss with
    | None => set_messages [{| chat_role := "assistant"; chat_content := greeting |}] ss
    | Some _ => ss
    end in
  match ss_user_input ss1 with
  | None => set_user_input EmptyString ss1
  | Some _ => ss1
  end.

(** Lines 75-86 *)
Definition _initialize_session_state : App unit := update_session initialized.

(** Lines 106-134.  [fuel] bounds the rounds of the loop of
    [chat_with_master_agent]. *)
Definition _handle_user_input (fuel : nat) (user_input : string) : App unit :=
  append_message {| chat_role := "user"; chat_content := user_input |};;
  in_chat_message "user" (markdown user_input);;
  in_chat_message "assistant"
    (in_spinner "Thinking..."
       (app_try
          (response <- on_lib (chat_with_master_agent E connection_string A
                                 json_loads master_agent_id fuel user_input);;
           markdown response;;
           append_message {| chat_role := "assistant"; chat_content := response |})
          (fun e =>
             let error_msg := ("Sorry, I encountered an error: " ++ exn_str e)%string in
             ui (UiError error_msg) (st_error St error_msg);;
             append_message {| chat_role := "assistant";
                               chat_content := error_msg |}))).

(** Lines 93-95: the loop over the history. *)
Fixpoint render_messages (ms : list ChatMessage) : App unit :=
  match ms with
  | [] => app_ret tt
  | m :: rest =>
      in_chat_message (chat_role m) (markdown (chat_content m));;
      render_messages rest
  end.

(** The title of line 90; its emoji, one code point in Python, is here the
    four bytes of its UTF-8 encoding. *)
Definition chat_title : string := "💬 Chat with Real Estate Database".

Definition chat_placeholder : string :=
  "Ask me about properties, users, sales, or locations...".

(** Lines 88-104 *)
Definition _render_chat_interface (fuel : nat) : App unit :=
  ui (UiTitle chat_title) (st_title St chat_title);;
  ms <- session_attr "messages" ss_messages;;
  render_messages ms;;
  prompt <- ui (UiChatInput chat_placeholder) (st_chat_input St chat_placeholder);;
  (match prompt with
   | Some p => if truthy p then _handle_user_input fuel p else app_ret tt
   | None => app_ret tt
   end);;
  pending <- session_attr "user_input" ss_user_input;;
  if truthy pending then
    pending' <- session_attr "user_input" ss_user_input;;
    _handle_user_input fuel pending';;
    update_session (set_user_input EmptyString)
  else
    app_ret tt.

End ChatbotApp.

Arguments app_state : clear implicits.
Arguments App : clear implicits.

(** ** An instance of Streamlit for the examples *)

Module DemoApp.

(** A front end on which every call returns; [typed] is what the user has
    sent through the chat input. *)
Definition streamlit (typed : option string) : Streamlit Sample.sim := {|
  st_title := fun _ w => (inr tt, w);
  st_chat_message := fun _ w => (inr tt, w);
  st_chat_message_exit := fun w => (inr tt, w);
  st_spinner := fun _ w => (inr tt, w);
  st_spinner_exit := fun w => (inr tt, w);
  st_markdown := fun _ w => (inr tt, w);
  st_error := fun _ w => (inr tt, w);
  st_chat_input := fun _ w => (inr typed, w);
  st_missing := fun key => ("st.session_state has no attribute " ++ key)%string
|}.

Definition fresh : SessionState := {| ss_messages := None; ss_user_input := None |}.

(** A new session after [_initialize_session_state], over the service that
    answers "42". *)
Definition app0 : app_state Sample.sim :=
  {| session := initialized fresh; screen := []; lib := Sample.answered |}.

End DemoApp.

(** What the screen shows: the texts written by [st.markdown] inside a chat
    message container, each with the name of its container.  [cur] is the
    container the calls start in. *)
Fixpoint bubbles (cur : option string) (calls : list ui_call) : list ChatMessage :=
  match calls with
  | [] => []
  | UiChatMessage name :: rest => bubbles (Some name) rest
  | UiChatMessageExit :: rest => bubbles None rest
  | UiMarkdown body :: rest =>
      match cur with
      | Some name => {| chat_role := name; chat_content := body |} :: bubbles cur rest
      | None => bubbles cur rest
      end
  | _ :: rest => bubbles cur rest
  end.

(** The container the screen is in after the calls. *)
Fixpoint container (cur : option string) (calls : list ui_call) : option string :=
  match calls with
  | [] => cur
  | UiChatMessage name :: rest => container (Some name) rest
  | UiChatMessageExit :: rest => container None rest
  | _ :: rest => container cur rest
  end.

(** Every call on the front end returns. *)
Definition ui_returns {W} (St : Streamlit W) : Prop :=
  (forall t w, fst (st_title St t w) = inr tt)
  /\ (forall n w, fst (st_chat_message St n w) = inr tt)
  /\ (forall w, fst (st_chat_message_exit St w) = inr tt)
  /\ (forall t w, fst (st_spinner St t w) = inr tt)
  /\ (forall w, fst (st_spinner_exit St w) = inr tt)
  /\ (forall t w, fst (st_markdown St t w) = inr tt)
  /\ (forall t w, fst (st_error St t w) = inr tt)
  /\ (forall p w, exists v, fst (st_chat_input St p w) = inr v).

(** ** Notions the statements use *)

(** The test of line 93. *)
Definition is_db_call (tc : ToolCall) : bool :=
  String.eqb (tc_name tc) "db_call".

(** [json.dumps] has an encoding for the value. *)
Definition encodable (v : pyval) : Prop :=
  exists text, Json.dumps v = inr text.




(** The calls on the database driver, and what they raise. *)
Definition is_db_event (ev : event) : bool :=
  match ev with
  | EvConnect _ | EvCursor | EvExecute _ | EvFetchall | EvCommit
  | EvCursorExit | EvConnExit _ | EvRaised _ => true
  | _ => false
  end.

(** The exception raised last. *)
Fixpoint last_raised (tr : list event) : option exn :=
  match tr with
  | [] => None
  | ev :: rest =>
      match last_raised rest, ev with
      | Some e, _ => Some e
      | None, EvRaised e => Some e
      | None, _ => None
      end
  end.

(** A computation that ends with the exception raised last while it ran,
    and raises none when it returns: it catches nothing. *)
Definition raises_last {W A} (m : M W A) : Prop :=
  forall s r s',
    m s = (r, s') ->
    exists new,
      trace s' = trace s ++ new
      /\ last_raised new = match r with inl e => Some e | inr _ => None end.

(** Every call a computation makes satisfies [P]. *)
Definition calls_only {W A} (P : event -> bool) (m : M W A) : Prop :=
  forall s r s',
    m s = (r, s') ->
    exists evs, trace s' = trace s ++ evs /\ forallb P evs = true.

(** Every request has exactly one output carrying its id. *)
Definition each_answered_once (tcs : list ToolCall) (outs : list ToolOutput) : Prop :=
  forall tc, In tc tcs ->
    exists o, In o outs /\ tool_call_id o = tc_id tc
              /\ forall o', In o' outs -> tool_call_id o' = tc_id tc -> o' = o.

(** The batches submitted to the run, in the order of the calls. *)
Fixpoint submitted (tr : list event) : list (list ToolOutput) :=
  match tr with
  | [] => []
  | EvSubmit _ _ outs :: rest => outs :: submitted rest
  | _ :: rest => submitted rest
  end.

(** The service lists a thread newest message first: the most recent
    message of the assistant is the first of the listing with that role. *)
Definition most_recent_assistant (messages : list ThreadMessage)
    : option ThreadMessage :=
  find (fun m => String.eqb (role m) "assistant") messages.

(** An exception was raised in the course of the trace. *)
Definition raised_in (tr : list event) : bool :=
  match last_raised tr with
  | Some _ => true
  | None => false
  end.

(** How many events of a trace satisfy [p]. *)
Definition count (p : event -> bool) (tr : list event) : nat :=
  length (filter p tr).

Definition is_conn_exit (ev : event) : bool :=
  match ev with
  | EvConnExit _ => true
  | _ => false
  end.

Definition is_cursor_exit (ev : event) : bool :=
  match ev with
  | EvCursorExit => true
  | _ => false
  end.

(** Every character of [s] is a space for [str.strip]. *)
Fixpoint all_space (s : string) : bool :=
  match s with
  | EmptyString => true
  | String c r => PyStr.isspace c && all_space r
  end.

(** The calls that set a turn up. *)
Definition is_setup (ev : event) : bool :=
  match ev with
  | EvCreateThread | EvCreateMessage _ _ _ | EvCreateRun _ _ => true
  | _ => false
  end.

Definition is_sleep (ev : event) : bool :=
  match ev with EvSleep => true | _ => false end.

Definition is_get_run (ev : event) : bool :=
  match ev with EvGetRun _ _ => true | _ => false end.

Definition is_submit (ev : event) : bool :=
  match ev with EvSubmit _ _ _ => true | _ => false end.

Definition is_list_messages (ev : event) : bool :=
  match ev with EvListMessages _ => true | _ => false end.

(** What the loop of line 139 may call: the driver, through the gateway,
    and the three calls of a turn of the loop. *)
Definition is_poll_event (ev : event) : bool :=
  is_db_event ev || is_sleep ev || is_get_run ev || is_submit ev.

(** * Properties *)

(** ** Stepping through monadic code *)

Ltac unfold_monad :=
  unfold try_except, with_, bind, call, read, lift, ret, raise in *.

(** Case analysis on the next library answer or test the goal is stuck on. *)
Ltac next_case :=
  match goal with
  | |- context [match ?x with _ => _ end] =>
      lazymatch x with
      | context [match _ with _ => _ end] => fail
      | _ => destruct x eqn:?
      end
  end.

Lemma trace_snoc_assoc (l : list event) (a : event) (r : list event) :
  (l ++ [a]) ++ r = l ++ a :: r.
Proof. now rewrite <- app_assoc. Qed.

(** Two spellings of one trace. *)
Ltac same_trace :=
  cbn [raised_by]; rewrite <- ?app_assoc; cbn [app]; reflexivity.

(** Inversion of a computation that returned. *)

Section MonadFacts.

Context {W : Type}.

Lemma bind_returns {A B} (m : M W A) (f : A -> M W B) (s s' : state W) (b : B) :
  bind m f s = (inr b, s') ->
  exists a s1, m s = (inr a, s1) /\ f a s1 = (inr b, s').
Proof.
  unfold bind. destruct (m s) as [[e|a] s1]; intros H; [discriminate|].
  now exists a, s1.
Qed.

Lemma with_returns {R A} (enter : M W R) (leave : bool -> M W unit)
    (body : R -> M W A) (s s' : state W) (a : A) :
  with_ enter leave body s = (inr a, s') ->
  exists r s1 s2,
    enter s = (inr r, s1) /\ body r s1 = (inr a, s2)
    /\ leave false s2 = (inr tt, s').
Proof.
  unfold with_. destruct (enter s) as [[e|r] s1] eqn:He; [discriminate|].
  destruct (body r s1) as [[e|a'] s2] eqn:Hb.
  - destruct (leave true s2) as [[e'|u] s3]; discriminate.
  - destruct (leave false s2) as [[e'|[]] s3] eqn:Hl; intros H; [discriminate|].
    inversion H; subst. exists r, s1, s2. auto.
Qed.

Lemma pair_eta {A B} (p : A * B) (a : A) : fst p = a -> p = (a, snd p).
Proof. destruct p. cbn. now intros ->. Qed.

Lemma ret_returns {A} (a b : A) (s s' : state W) :
  ret a s = (inr b, s') -> a = b /\ s = s'.
Proof. unfold ret. intros H. now inversion H. Qed.

Lemma call_trace {A} (ev : event) (op : W -> res A * W) (s s' : state W) (r : res A) :
  call ev op s = (r, s') -> trace s' = trace s ++ ev :: raised_by r.
Proof.
  unfold call. destruct (op (world s)) as [r0 w']. intros H.
  now inversion H.
Qed.

Lemma lift_trace {A} (x r : res A) (s s' : state W) :
  lift x s = (r, s') -> r = x /\ trace s' = trace s ++ raised_by x.
Proof.
  destruct x as [e|a]; cbn; intros H; inversion H; subst; cbn;
    [|rewrite app_nil_r]; now split.
Qed.


Lemma lift_returns {A} (r : res A) (s s' : state W) (a : A) :
  lift r s = (inr a, s') -> r = inr a /\ s = s'.
Proof. destruct r; cbn; intros H; inversion H; now subst. Qed.

(** [calls_only] follows the structure of the code. *)

Variable P : event -> bool.
Hypothesis P_raised : forall e, P (EvRaised e) = true.

Lemma calls_only_ret {A} (a : A) : calls_only P (ret (W:=W) a).
Proof.
  intros s r s' H. inversion H; subst. exists []. now rewrite app_nil_r.
Qed.

Lemma calls_only_raise {A} (e : exn) : calls_only P (raise (W:=W) (A:=A) e).
Proof.
  intros s r s' H. inversion H; subst. exists [EvRaised e].
  split; [reflexivity|]. cbn. now rewrite P_raised.
Qed.

Lemma calls_only_lift {A} (x : res A) : calls_only P (lift (W:=W) x).
Proof.
  destruct x as [e|a]; [apply calls_only_raise | apply calls_only_ret].
Qed.

Lemma calls_only_read {A} (f : W -> A) : calls_only P (read f).
Proof.
  intros s r s' H. inversion H; subst. exists []. now rewrite app_nil_r.
Qed.

Lemma calls_only_call {A} (ev : event) (op : W -> res A * W) :
  P ev = true -> calls_only P (call ev op).
Proof.
  intros Hev s r s' H. apply call_trace in H. exists (ev :: raised_by r).
  split; [exact H|]. cbn. rewrite Hev.
  destruct r; cbn; [now rewrite P_raised | reflexivity].
Qed.

Lemma calls_only_bind {A B} (m : M W A) (f : A -> M W B) :
  calls_only P m -> (forall a, calls_only P (f a)) -> calls_only P (bind m f).
Proof.
  intros Hm Hf s r s'. unfold bind.
  destruct (m s) as [[e|a] s1] eqn:Hms; intros H.
  - inversion H; subst. eapply Hm. exact Hms.
  - destruct (Hm _ _ _ Hms) as (evs1 & Ht1 & Hp1).
    destruct (Hf a _ _ _ H) as (evs2 & Ht2 & Hp2).
    exists (evs1 ++ evs2). rewrite Ht2, Ht1, app_assoc, forallb_app, Hp1, Hp2.
    now split.
Qed.

Lemma calls_only_with {R A} (enter : M W R) (leave : bool -> M W unit)
    (body : R -> M W A) :
  calls_only P enter -> (forall b, calls_only P (leave b)) ->
  (forall r, calls_only P (body r)) -> calls_only P (with_ enter leave body).
Proof.
  intros He Hl Hb s r s'. unfold with_.
  destruct (enter s) as [[e|x] s1] eqn:Hes; intros H.
  - inversion H; subst. eapply He. exact Hes.
  - destruct (He _ _ _ Hes) as (evs1 & Ht1 & Hp1).
    destruct (body x s1) as [ra s2] eqn:Hbs.
    destruct (Hb x _ _ _ Hbs) as (evs2 & Ht2 & Hp2).
    assert (G : forall b u s3, leave b s2 = (u, s3) ->
                exists evs, trace s3 = trace s ++ evs /\ forallb P evs = true).
    { intros b u s3 Hls. destruct (Hl b _ _ _ Hls) as (evs3 & Ht3 & Hp3).
      exists (evs1 ++ evs2 ++ evs3).
      rewrite Ht3, Ht2, Ht1, !forallb_app, Hp1, Hp2, Hp3, <- !app_assoc.
      now split. }
    destruct ra as [e|a].
    + destruct (leave true s2) as [[e'|u] s3] eqn:Hls;
        inversion H; subst; eapply G; exact Hls.
    + destruct (leave false s2) as [[e'|u] s3] eqn:Hls;
        inversion H; subst; eapply G; exact Hls.
Qed.

(** [raises_last] follows the structure of the code as well. *)

Lemma last_raised_app (a b : list event) :
  last_raised (a ++ b)
  = match last_raised b with
    | Some e => Some e
    | None => last_raised a
    end.
Proof.
  induction a as [|ev a IH]; simpl.
  - now destruct (last_raised b).
  - rewrite IH. now destruct (last_raised b).
Qed.

Lemma raises_last_ret {A} (a : A) : raises_last (ret (W:=W) a).
Proof.
  intros s r s' H. inversion H; subst. exists []. now rewrite app_nil_r.
Qed.

Lemma raises_last_raise {A} (e : exn) : raises_last (raise (W:=W) (A:=A) e).
Proof.
  intros s r s' H. inversion H; subst. now exists [EvRaised e].
Qed.

Lemma raises_last_lift {A} (x : res A) : raises_last (lift (W:=W) x).
Proof.
  destruct x as [e|a]; [apply raises_last_raise | apply raises_last_ret].
Qed.

Lemma raises_last_read {A} (f : W -> A) : raises_last (read f).
Proof.
  intros s r s' H. inversion H; subst. exists []. now rewrite app_nil_r.
Qed.

Lemma raises_last_call {A} (ev : event) (op : W -> res A * W) :
  (forall e, ev <> EvRaised e) -> raises_last (call ev op).
Proof.
  intros Hev s r s' H. apply call_trace in H. exists (ev :: raised_by r).
  split; [exact H|].
  destruct r as [e|a]; cbn; destruct ev; try reflexivity;
    exfalso; eapply Hev; reflexivity.
Qed.

Lemma raises_last_bind {A B} (m : M W A) (f : A -> M W B) :
  raises_last m -> (forall a, raises_last (f a)) -> raises_last (bind m f).
Proof.
  intros Hm Hf s r s'. unfold bind.
  destruct (m s) as [[e|a] s1] eqn:Hms; intros H.
  - inversion H; subst. exact (Hm _ _ _ Hms).
  - destruct (Hm _ _ _ Hms) as (new1 & Ht1 & Hl1).
    destruct (Hf a _ _ _ H) as (new2 & Ht2 & Hl2).
    exists (new1 ++ new2). rewrite Ht2, Ht1, app_assoc, last_raised_app, Hl2, Hl1.
    split; [reflexivity | now destruct r].
Qed.

Lemma raises_last_with {R A} (enter : M W R) (leave : bool -> M W unit)
    (body : R -> M W A) :
  raises_last enter -> (forall b, raises_last (leave b)) ->
  (forall r, raises_last (body r)) -> raises_last (with_ enter leave body).
Proof.
  intros He Hl Hb s r s'. unfold with_.
  destruct (enter s) as [[e|x] s1] eqn:Hes; intros H.
  - inversion H; subst. exact (He _ _ _ Hes).
  - destruct (He _ _ _ Hes) as (new1 & Ht1 & Hl1).
    destruct (body x s1) as [ra s2] eqn:Hbs.
    destruct (Hb x _ _ _ Hbs) as (new2 & Ht2 & Hl2).
    assert (G : forall b u s3, leave b s2 = (u, s3) ->
                exists new3, trace s3 = trace s ++ (new1 ++ new2) ++ new3
                             /\ last_raised new3
                                = match u with inl e => Some e | inr _ => None end).
    { intros b u s3 Hls. destruct (Hl b _ _ _ Hls) as (new3 & Ht3 & Hl3).
      exists new3. rewrite Ht3, Ht2, Ht1, <- !app_assoc. now split. }
    destruct ra as [e|a].
    + destruct (leave true s2) as [[e'|u] s3] eqn:Hls;
        destruct (G _ _ _ Hls) as (new3 & Ht3 & Hl3);
        inversion H; subst; exists ((new1 ++ new2) ++ new3);
        (split; [exact Ht3|]); rewrite !last_raised_app, Hl3;
        [reflexivity | now rewrite Hl2].
    + destruct (leave false s2) as [[e'|u] s3] eqn:Hls;
        destruct (G _ _ _ Hls) as (new3 & Ht3 & Hl3);
        inversion H; subst; exists ((new1 ++ new2) ++ new3);
        (split; [exact Ht3|]); rewrite !last_raised_app, Hl3;
        [reflexivity | now rewrite Hl2, Hl1].
Qed.

End MonadFacts.

(** ** The keyword allow-list *)

Section GateFacts.

Lemma prefix_cons (a b : ascii) (p t : string) :
  String.prefix (String a p) (String b t)
  = if ascii_dec a b then String.prefix p t else false.
Proof. reflexivity. Qed.

Lemma prefix_update_not_select (t : string) :
  String.prefix "UPDATE" t = true -> String.prefix "SELECT" t = false.
Proof.
  destruct t as [|c t]; [discriminate|].
  rewrite !prefix_cons.
  destruct (ascii_dec "U" c) as [<-|]; intros H; [reflexivity | discriminate].
Qed.

Lemma update_is_not_select (q : string) :
  leading_keyword q "UPDATE" = true -> leading_keyword q "SELECT" = false.
Proof. apply prefix_update_not_select. Qed.

Lemma append_empty (s : string) : (s ++ EmptyString)%string = s.
Proof. induction s as [|c s IH]; simpl; [reflexivity | now rewrite IH]. Qed.

Lemma empty_query_unclassified :
  leading_keyword EmptyString "SELECT" = false
  /\ leading_keyword EmptyString "UPDATE" = false.
Proof. split; reflexivity. Qed.

End GateFacts.

(** ** Dictionaries built from pairs *)

Section DictFacts.

Lemma set_keys_in (d : pydict) (k : string) (v : pyval) (x : string) :
  In x (PyDict.keys (PyDict.set d k v)) <-> x = k \/ In x (PyDict.keys d).
Proof.
  induction d as [|[k' v'] d IH]; simpl.
  - intuition congruence.
  - destruct (String.eqb_spec k' k) as [->|Hne]; simpl.
    + intuition.
    + rewrite IH. intuition.
Qed.

Lemma fold_set_keys_in (pairs : list (string * pyval)) (d : pydict) (x : string) :
  In x (PyDict.keys (fold_left (fun d kv => PyDict.set d (fst kv) (snd kv)) pairs d))
  <-> In x (map fst pairs) \/ In x (PyDict.keys d).
Proof.
  revert d. induction pairs as [|[k v] pairs IH]; intros d; simpl.
  - intuition.
  - rewrite IH, set_keys_in. simpl. intuition.
Qed.

(** The keys of [dict(pairs)] are the first components of the pairs. *)
Lemma of_pairs_keys_in (pairs : list (string * pyval)) (x : string) :
  In x (PyDict.keys (PyDict.of_pairs pairs)) <-> In x (map fst pairs).
Proof.
  unfold PyDict.of_pairs. rewrite fold_set_keys_in. simpl. intuition.
Qed.

Lemma set_fresh (d : pydict) (k : string) (v : pyval) :
  ~ In k (PyDict.keys d) -> PyDict.set d k v = d ++ [(k, v)].
Proof.
  induction d as [|[k' v'] d IH]; simpl; intros Hk; [reflexivity|].
  destruct (String.eqb_spec k' k) as [->|Hne].
  - exfalso. apply Hk. now left.
  - rewrite IH; [reflexivity|]. intros Hin. apply Hk. now right.
Qed.

Lemma fold_set_nodup (pairs : list (string * pyval)) (d : pydict) :
  NoDup (PyDict.keys d ++ map fst pairs) ->
  fold_left (fun d kv => PyDict.set d (fst kv) (snd kv)) pairs d = d ++ pairs.
Proof.
  revert d. induction pairs as [|[k v] pairs IH]; intros d Hnd; simpl.
  - now rewrite app_nil_r.
  - simpl in Hnd. rewrite set_fresh.
    + rewrite IH.
      * now rewrite <- app_assoc.
      * unfold PyDict.keys in *. rewrite map_app. simpl.
        now rewrite <- app_assoc.
    + apply NoDup_remove_2 in Hnd. intros Hin. apply Hnd.
      apply in_or_app. now left.
Qed.

(** With pairwise distinct keys, [dict(pairs)] is the pairs in their order. *)
Lemma of_pairs_nodup (pairs : list (string * pyval)) :
  NoDup (map fst pairs) -> PyDict.of_pairs pairs = pairs.
Proof.
  intros Hnd. unfold PyDict.of_pairs. now rewrite fold_set_nodup.
Qed.

Lemma zip_keys {B} (cols : list string) (row : list B) :
  length row = length cols -> map fst (py_zip cols row) = cols.
Proof.
  unfold py_zip. revert row.
  induction cols as [|c cols IH]; intros [|v row] Hlen; simpl in *;
    try reflexivity; try discriminate.
  f_equal. apply IH. lia.
Qed.

End DictFacts.

(** ** json.dumps on query results *)

Section EncodingFacts.

Lemma encode_all_ok {A} (encode : A -> res string) (l : list A) :
  Forall (fun x => exists text, encode x = inr text) l ->
  exists parts, Json.encode_all encode l = inr parts.
Proof.
  induction 1 as [|x l [text Hx] _ [parts IH]]; simpl.
  - now exists [].
  - rewrite Hx, IH. now eexists.
Qed.

Lemma encodable_list (l : list pyval) :
  Forall encodable l -> encodable (VList l).
Proof.
  intros H. destruct (encode_all_ok Json.dumps l H) as [parts Hp].
  unfold encodable. cbn [Json.dumps]. rewrite Hp. now eexists.
Qed.

Lemma encodable_dict (d : pydict) :
  Forall (fun kv => encodable (snd kv)) d -> encodable (VDict d).
Proof.
  intros H. unfold encodable. cbn [Json.dumps].
  edestruct (encode_all_ok
               (fun kv : string * pyval =>
                  match Json.dumps (snd kv) with
                  | inl e => inl e
                  | inr sx => inr (Json.encode_str (fst kv) ++ ": " ++ sx)%string
                  end) d) as [parts Hp].
  - eapply Forall_impl; [|exact H]. intros kv [text Hkv].
    rewrite Hkv. now eexists.
  - rewrite Hp. now eexists.
Qed.

Lemma encodable_atoms :
  encodable VNone /\ (forall b, encodable (VBool b))
  /\ (forall n, encodable (VInt n)) /\ (forall s, encodable (VStr s)).
Proof. repeat split; intros; eexists; reflexivity. Qed.




(** A result is encodable when the values of its rows are. *)
Lemma encodable_result (r : QueryResult) :
  (forall rows, data r = Some rows ->
                Forall (Forall (fun kv => encodable (snd kv))) rows) ->
  encodable (result_to_py r).
Proof.
  destruct encodable_atoms as (HN & HB & HI & HS).
  intros Hdata. unfold result_to_py. apply encodable_dict.
  apply Forall_app. split.
  - repeat constructor; cbn [snd]; auto.
    + destruct (data r) as [rows|]; cbn; [|exact HN].
      apply encodable_list, Forall_map.
      eapply Forall_impl; [|exact (Hdata rows eq_refl)].
      intros row. apply encodable_dict.
    + destruct (columns r) as [cols|]; cbn; [|exact HN].
      apply encodable_list, Forall_map, Forall_forall. auto.
    + destruct (error r); cbn; auto.
  - destruct (message r); repeat constructor; cbn; auto.
Qed.

End EncodingFacts.

(** ** execute_query *)

Section ExecuteQueryFacts.

Context {W : Type}.
Variable E : Engine W.
Variable cs : string.

(** Rewrites with the answers of the engine given as hypotheses. *)
Ltac answer :=
  repeat match goal with
         | H : ?l = _ |- context [?l] => rewrite H; cbn [fst snd world trace]
         end.

Ltac run_query :=
  unfold execute_query, execute_query_body; unfold_monad;
  cbn [as_str world trace]; answer.

(** Where the statement starts with neither keyword and the engine runs it
    without an error, the statement has been executed, and the transaction
    committed on leaving the connection block, when the rejection is
    returned. *)
Lemma rejected_statement_is_executed (q : string) (s : state W) (w1 w2 w3 w4 w5 : W) :
  leading_keyword q "SELECT" = false ->
  leading_keyword q "UPDATE" = false ->
  pg_connect E cs (world s) = (inr tt, w1) ->
  pg_cursor E w1 = (inr tt, w2) ->
  pg_execute E (VStr q) w2 = (inr tt, w3) ->
  pg_cursor_exit E w3 = (inr tt, w4) ->
  pg_conn_exit E false w4 = (inr tt, w5) ->
  execute_query E cs (VStr q) s
  = (failure unsupported_msg,
     {| world := w5;
        trace := trace s ++ [EvConnect cs; EvCursor; EvExecute (VStr q);
                             EvCursorExit; EvConnExit false] |}).
Proof.
  intros Hsel Hupd Hc Hcur Hex Hce Hx.
  run_query. same_trace.
Qed.

(** C8: an UPDATE statement that the engine runs, reporting [M] affected
    rows, is committed, and the result is success=true, data=null,
    columns=null, row_count=M, error=null and the message
    "Updated M row(s)".  The trace shows the commit after the execution. *)
Theorem update_commits_and_reports (q : string) (s : state W) (M : Z)
    (w1 w2 w3 w4 w5 w6 : W) :
  leading_keyword q "UPDATE" = true ->
  pg_connect E cs (world s) = (inr tt, w1) ->
  pg_cursor E w1 = (inr tt, w2) ->
  pg_execute E (VStr q) w2 = (inr tt, w3) ->
  pg_rowcount E w3 = M ->
  pg_commit E w3 = (inr tt, w4) ->
  pg_cursor_exit E w4 = (inr tt, w5) ->
  pg_conn_exit E false w5 = (inr tt, w6) ->
  exists msg,
    execute_query E cs (VStr q) s
    = ({| success := true; data := None; row_count := M; columns := None;
          error := None; message := Some msg |},
       {| world := w6;
          trace := trace s ++ [EvConnect cs; EvCursor; EvExecute (VStr q);
                               EvCommit; EvCursorExit; EvConnExit false] |})
    /\ msg = ("Updated " ++ PyStr.of_int M ++ " row(s)")%string
    /\ PyStr.contains msg (PyStr.of_int M).
Proof.
  intros Hupd Hc Hcur Hex Hrc Hcm Hce Hx.
  pose proof (update_is_not_select q Hupd) as Hsel.
  eexists. split; [|split; [reflexivity|]].
  - run_query. same_trace.
  - exists "Updated ", " row(s)". reflexivity.
Qed.

(** C3: a SELECT statement that the engine runs, yielding the rows [rows]
    under the column names [cols], returns success=true, error=null,
    row_count = the number of rows, columns = [cols] in their order, and as
    data one mapping per row, in the order of the rows, each the row paired
    by position with the names and holding exactly the names as keys. *)
Theorem select_returns_rows (q : string) (s : state W)
    (rows : list (list pyval)) (cols : list string) (w1 w2 w3 w4 w5 w6 : W) :
  leading_keyword q "SELECT" = true ->
  pg_connect E cs (world s) = (inr tt, w1) ->
  pg_cursor E w1 = (inr tt, w2) ->
  pg_execute E (VStr q) w2 = (inr tt, w3) ->
  pg_fetchall E w3 = (inr rows, w4) ->
  pg_description E w4 = Some cols ->
  Forall (fun row => length row = length cols) rows ->
  pg_cursor_exit E w4 = (inr tt, w5) ->
  pg_conn_exit E false w5 = (inr tt, w6) ->
  exists d,
    execute_query E cs (VStr q) s
    = ({| success := true; data := Some d;
          row_count := Z.of_nat (length rows); columns := Some cols;
          error := None; message := None |},
       {| world := w6;
          trace := trace s ++ [EvConnect cs; EvCursor; EvExecute (VStr q);
                               EvFetchall; EvCursorExit; EvConnExit false] |})
    /\ length d = length rows
    /\ d = map (fun row => PyDict.of_pairs (py_zip cols row)) rows
    /\ Forall (fun m => forall k, In k (PyDict.keys m) <-> In k cols) d
    /\ (NoDup cols -> d = map (py_zip cols) rows).
Proof.
  intros Hsel Hc Hcur Hex Hf Hd Hlen Hce Hx.
  exists (map (fun row => PyDict.of_pairs (py_zip cols row)) rows).
  split; [|split; [|split; [|split]]].
  - run_query. rewrite length_map. same_trace.
  - apply length_map.
  - reflexivity.
  - apply Forall_map. eapply Forall_impl; [|exact Hlen].
    intros row Hrow k. cbn beta.
    now rewrite of_pairs_keys_in, zip_keys.
  - intros Hnd. apply map_ext_in. intros row Hin.
    apply of_pairs_nodup. rewrite zip_keys; [exact Hnd|].
    rewrite Forall_forall in Hlen. now apply Hlen.
Qed.

(** What the body of the [try] returns when it returns: a success without
    an error text, or the rejection. *)
Lemma body_result_shape (query : pyval) (s s' : state W) (r : QueryResult) :
  execute_query_body E cs query s = (inr r, s') ->
  (success r = true /\ error r = None) \/ r = failure unsupported_msg.
Proof.
  unfold execute_query_body. intros H.
  apply with_returns in H as (_ & s1 & s2 & _ & H & _).
  apply with_returns in H as (_ & s3 & s4 & _ & H & _).
  apply bind_returns in H as (_ & s5 & _ & H).
  apply bind_returns in H as (q & s6 & _ & H).
  destruct (leading_keyword q "SELECT").
  - apply bind_returns in H as (rows & s7 & _ & H).
    apply bind_returns in H as (description & s8 & _ & H).
    apply bind_returns in H as (columns & s9 & _ & H).
    apply ret_returns in H as [<- _]. now left.
  - destruct (leading_keyword q "UPDATE").
    + apply bind_returns in H as (affected & s7 & _ & H).
      apply bind_returns in H as (_ & s8 & _ & H).
      apply ret_returns in H as [<- _]. now left.
    + apply ret_returns in H as [<- _]. now right.
Qed.

(** The body of the [try] catches nothing: it ends with the exception
    raised last. *)
Lemma execute_query_body_raises_last (query : pyval) :
  raises_last (execute_query_body E cs query).
Proof.
  unfold execute_query_body.
  repeat first
    [ apply raises_last_with | apply raises_last_bind | apply raises_last_call
    | apply raises_last_lift | apply raises_last_read | apply raises_last_ret
    | apply raises_last_raise | discriminate
    | match goal with
      | |- forall _, _ => intro
      | |- raises_last (if ?b then _ else _) => destruct b
      | |- raises_last (match ?x with _ => _ end) => destruct x
      end ].
Qed.

(** C4: [execute_query] returns a result on every statement, world and
    engine, and raises nothing.  When an exception was raised while it ran,
    the result is made from the one raised last: for an error of the
    database engine, success=false, row_count=0, data=null, columns=null
    and the text of the error as it is; for any other exception, the same
    shape with the text after "Unexpected error: ".  When none was raised,
    the result is the one the body of the [try] returned. *)
Theorem execute_query_never_raises (query : pyval) (s : state W) :
  exists r s' new,
    execute_query E cs query s = (r, s')
    /\ trace s' = trace s ++ new
    /\ match last_raised new with
       | Some (Psycopg2Error msg) =>
           r = {| success := false; data := None; row_count := 0;
                  columns := None; error := Some msg; message := None |}
       | Some (PyException _ msg) =>
           r = {| success := false; data := None; row_count := 0;
                  columns := None;
                  error := Some ("Unexpected error: " ++ msg)%string;
                  message := None |}
       | None => execute_query_body E cs query s = (inr r, s')
       end.
Proof.
  unfold execute_query, try_except.
  destruct (execute_query_body E cs query s) as [[e|r0] s0] eqn:Hbody;
    destruct (execute_query_body_raises_last query _ _ _ Hbody)
      as (new & Ht & Hl);
    eexists; exists s0, new; (split; [reflexivity|]); (split; [exact Ht|]);
    rewrite Hl.
  - now destruct e.
  - reflexivity.
Qed.

(** C10: on every path the result has success=true exactly when error is
    null, and a result with success=false has data=null and row_count=0. *)
Theorem result_success_iff_no_error (query : pyval) (s : state W) :
  let r := fst (execute_query E cs query s) in
  (success r = true <-> error r = None)
  /\ (success r = false -> data r = None /\ row_count r = 0%Z).
Proof.
  unfold execute_query, try_except.
  destruct (execute_query_body E cs query s) as [[[msg|cls msg]|r0] s0] eqn:Hbody;
    cbn.
  - split; [split; discriminate | auto].
  - split; [split; discriminate | auto].
  - destruct (body_result_shape _ _ _ _ Hbody) as [[Hs He]| ->].
    + rewrite Hs, He. split; [tauto | discriminate].
    + cbn. split; [split; discriminate | auto].
Qed.

(** An error of the engine at any of its calls is what the body ends with,
    unless leaving a block raises in turn: the cases of a refused connection
    and of a statement the engine rejects. *)
Lemma connect_error_is_reported (query : pyval) (s : state W) (e : exn) (w1 : W) :
  pg_connect E cs (world s) = (inl e, w1) ->
  execute_query E cs query s
  = (execute_query_handler e,
     {| world := w1; trace := trace s ++ [EvConnect cs; EvRaised e] |}).
Proof. intros Hc. run_query. reflexivity. Qed.

Lemma execute_error_is_reported (query : pyval) (s : state W) (e : exn)
    (w1 w2 w3 w4 w5 : W) :
  pg_connect E cs (world s) = (inr tt, w1) ->
  pg_cursor E w1 = (inr tt, w2) ->
  pg_execute E query w2 = (inl e, w3) ->
  pg_cursor_exit E w3 = (inr tt, w4) ->
  pg_conn_exit E true w4 = (inr tt, w5) ->
  execute_query E cs query s
  = (execute_query_handler e,
     {| world := w5;
        trace := trace s ++ [EvConnect cs; EvCursor; EvExecute query;
                             EvRaised e; EvCursorExit; EvConnExit true] |}).
Proof.
  intros Hc Hcur Hex Hce Hx. run_query. same_trace.
Qed.

(** Every call [execute_query] makes is a call on the database driver. *)
Lemma execute_query_body_calls (query : pyval) :
  calls_only is_db_event (execute_query_body E cs query).
Proof.
  unfold execute_query_body.
  repeat first
    [ apply calls_only_with | apply calls_only_bind | apply calls_only_call
    | apply calls_only_lift | apply calls_only_read | apply calls_only_ret
    | apply calls_only_raise | reflexivity
    | match goal with
      | |- forall _, _ => intro
      | |- calls_only _ (if ?b then _ else _) => destruct b
      | |- calls_only _ (match ?x with _ => _ end) => destruct x
      end ].
Qed.

Lemma execute_query_calls (query : pyval) (s : state W) :
  exists evs,
    trace (snd (execute_query E cs query s)) = trace s ++ evs
    /\ forallb is_db_event evs = true.
Proof.
  unfold execute_query, try_except.
  destruct (execute_query_body E cs query s) as [[e|r] s'] eqn:H;
    apply execute_query_body_calls in H; exact H.
Qed.



(** A statement that starts with neither keyword never succeeds. *)
Lemma unclassified_fails (q : string) (s : state W) :
  leading_keyword q "SELECT" = false ->
  leading_keyword q "UPDATE" = false ->
  let r := fst (execute_query E cs (VStr q) s) in
  success r = false /\ data r = None /\ row_count r = 0%Z /\ error r <> None.
Proof.
  intros Hsel Hupd. unfold execute_query, try_except.
  destruct (execute_query_body E cs (VStr q) s) as [[[msg|cls msg]|r] s'] eqn:H;
    cbn; try (repeat split; discriminate).
  unfold execute_query_body in H.
  apply with_returns in H as (_ & s1 & s2 & _ & H & _).
  apply with_returns in H as (_ & s3 & s4 & _ & H & _).
  apply bind_returns in H as (_ & s5 & _ & H).
  apply bind_returns in H as (q' & s6 & Hq & H).
  apply lift_returns in Hq as [Hq _]. inversion Hq; subst q'.
  rewrite Hsel, Hupd in H. apply ret_returns in H as [<- _].
  repeat split; discriminate.
Qed.

End ExecuteQueryFacts.


(** ** _handle_tool_calls *)

Section ToolGatewayFacts.

Context {W : Type}.
Variable E : Engine W.
Variable cs : string.
Variable json_loads : string -> res pyval.

Lemma db_call_str (q : string) (s : state W) :
  db_call E cs (VStr q) s
  = (inr (fst (execute_query E cs (VStr q) s)),
     snd (execute_query E cs (VStr q) s)).
Proof.
  unfold db_call, bind. cbn [slice100 lift]. unfold ret.
  now destruct (execute_query E cs (VStr q) s).
Qed.


(** The output of a request that got one carries the id of the request. *)
Lemma handle_db_call_id (tc : ToolCall) (s s' : state W) (o : ToolOutput) :
  handle_db_call E cs json_loads tc s = (inr o, s') ->
  tool_call_id o = tc_id tc.
Proof.
  unfold handle_db_call. intros H.
  apply bind_returns in H as (args & s1 & _ & H).
  apply bind_returns in H as (query & s2 & _ & H).
  apply bind_returns in H as (result & s3 & _ & H).
  apply bind_returns in H as (out & s4 & _ & H).
  apply ret_returns in H as [<- _]. reflexivity.
Qed.

(** Whenever the loop returns, it has added one output for each request
    that names [db_call], in the order of the requests, and none for the
    others. *)
Lemma loop_outputs (tcs : list ToolCall) :
  forall (acc outs : list ToolOutput) (s s' : state W),
    handle_tool_calls_loop E cs json_loads tcs acc s = (inr outs, s') ->
    exists new,
      outs = acc ++ new
      /\ map tool_call_id new = map tc_id (filter is_db_call tcs).
Proof.
  induction tcs as [|tc tcs IH]; intros acc outs s s' H; simpl in H.
  - apply ret_returns in H as [<- _]. exists []. now rewrite app_nil_r.
  - unfold is_db_call at 1. cbn [filter]. fold (is_db_call tc).
    unfold is_db_call at 1.
    destruct (String.eqb (tc_name tc) "db_call").
    + apply bind_returns in H as (o & s1 & Ho & H).
      apply handle_db_call_id in Ho.
      destruct (IH _ _ _ _ H) as (new & -> & Hids).
      exists (o :: new). rewrite <- app_assoc. split; [reflexivity|].
      cbn. now rewrite Ho, Hids.
    + exact (IH _ _ _ _ H).
Qed.



(** C7, amended: a db_call request whose arguments are a JSON object
    without a "query" key is run with the empty string as its query;
    [execute_query] returns for it a failure result (success=false,
    data=null, row_count=0, an error text) and raises nothing, the request
    gets that result as its output, and the loop goes on with the rest of
    the batch. *)
Theorem missing_query_defaults_to_empty (tc : ToolCall) (d : pydict)
    (rest : list ToolCall) (acc : list ToolOutput) (s : state W) :
  is_db_call tc = true ->
  json_loads (tc_arguments tc) = inr (VDict d) ->
  PyDict.get d "query" = None ->
  get_query (VDict d) = inr (VStr EmptyString)
  /\ exists r s' body,
       execute_query E cs (VStr EmptyString) s = (r, s')
       /\ success r = false /\ data r = None /\ row_count r = 0%Z
       /\ error r <> None
       /\ Json.dumps (result_to_py r) = inr body
       /\ handle_tool_calls_loop E cs json_loads (tc :: rest) acc s
          = handle_tool_calls_loop E cs json_loads rest
              (acc ++ [{| tool_call_id := tc_id tc; output := body |}]) s'.
Proof.
  intros Hname Hl Hq.
  split; [cbn; now rewrite Hq|].
  destruct (unclassified_fails E cs EmptyString s eq_refl eq_refl)
    as (Hs & Hd & Hn & He).
  destruct (execute_query E cs (VStr EmptyString) s) as [r s'] eqn:Hr.
  cbn [fst] in *.
  assert (Henc : encodable (result_to_py r)).
  { apply encodable_result. intros rows Hrows. congruence. }
  destruct Henc as [body Hbody].
  exists r, s', body. split; [reflexivity|]. repeat (split; [assumption|]).
  cbn [handle_tool_calls_loop]. unfold is_db_call in Hname. rewrite Hname.
  unfold handle_db_call. rewrite Hl. unfold bind at 1, bind at 1.
  cbn [lift ret get_query]. rewrite Hq. unfold bind at 1. cbn [lift ret].
  unfold bind at 1. rewrite db_call_str, Hr. cbn [fst snd].
  unfold bind. rewrite Hbody. reflexivity.
Qed.

End ToolGatewayFacts.

(** ** chat_with_master_agent *)

Section OrchestratorFacts.

Context {W : Type}.
Variable E : Engine W.
Variable cs : string.
Variable A : AgentService W.
Variable json_loads : string -> res pyval.
Variable agent : string.

(** The gateway calls nothing but the database driver. *)
Lemma db_call_calls (query : pyval) : calls_only is_db_event (db_call E cs query).
Proof.
  unfold db_call. apply calls_only_bind; [apply calls_only_lift; reflexivity|].
  intros _ s r s' H.
  pose proof (execute_query_calls E cs query s) as Hev.
  destruct (execute_query E cs query s) as [result s1].
  inversion H; subst. exact Hev.
Qed.

Lemma handle_tool_calls_loop_calls (tcs : list ToolCall) (acc : list ToolOutput) :
  calls_only is_db_event (handle_tool_calls_loop E cs json_loads tcs acc).
Proof.
  revert acc. induction tcs as [|tc tcs IH]; intros acc; simpl.
  - apply calls_only_ret.
  - destruct (String.eqb (tc_name tc) "db_call"); [|apply IH].
    apply calls_only_bind; [|intros o; apply IH].
    unfold handle_db_call.
    repeat first
      [ apply db_call_calls | apply calls_only_bind | apply calls_only_lift
      | apply calls_only_ret | reflexivity
      | match goal with |- forall _, _ => intro end ].
Qed.

(** C5, amended: in a turn of the loop that finds the run in
    requires-action and handles its requests without an exception, the batch
    submitted to the run holds one output for each pending request that
    names db_call, with the id of the request and in the order of the
    requests, and none for a request that names another tool; between
    fetching the run and submitting the batch only the database driver is
    called, so the batch is in before the run is fetched again. *)
Theorem requires_action_submits_outputs (thread : string) (run run' : ThreadRun)
    (tcs : list ToolCall) (outs : list ToolOutput) (s s2 : state W) (w1 : W) :
  get_run A thread (run_id run) (world s) = (inr run', w1) ->
  run_status run' = REQUIRES_ACTION ->
  run_tool_calls run' = Some tcs ->
  _handle_tool_calls E cs json_loads tcs
    {| world := w1;
       trace := trace s ++ [EvSleep; EvGetRun thread (run_id run)] |}
  = (inr outs, s2) ->
  map tool_call_id outs = map tc_id (filter is_db_call tcs)
  /\ exists dbevs,
       forallb is_db_event dbevs = true
       /\ let answer :=
            submit_tool_outputs_to_run A thread (run_id run') outs (world s2) in
          poll_once E cs A json_loads thread run s
          = (fst answer,
             {| world := snd answer;
                trace := trace s
                         ++ [EvSleep; EvGetRun thread (run_id run)]
                         ++ dbevs
                         ++ [EvSubmit thread (run_id run') outs]
                         ++ raised_by (fst answer) |}).
Proof.
  intros Hget Hst Htcs Hh. split.
  - unfold _handle_tool_calls in Hh.
    destruct (loop_outputs _ _ _ _ _ _ _ _ Hh) as (new & -> & Hids). exact Hids.
  - destruct (handle_tool_calls_loop_calls tcs [] _ _ _ Hh) as (dbevs & Ht & Hdb).
    exists dbevs. split; [exact Hdb|]. cbn zeta.
    unfold poll_once, sleep. unfold bind at 1, call at 1. cbn [world trace].
    unfold bind at 1, call at 1. cbn [world trace]. rewrite Hget, Hst.
    cbn [RunStatus_eqb raised_by]. rewrite Htcs.
    unfold bind at 1. cbn [lift ret]. unfold bind at 1.
    rewrite trace_snoc_assoc, Hh.
    unfold call. rewrite Ht. cbn [trace world].
    destruct (submit_tool_outputs_to_run A thread (run_id run') outs (world s2)).
    cbn [fst snd]. now rewrite <- !app_assoc.
Qed.

(** A run the loop hands over has left the three statuses of line 139. *)
Lemma poll_returns_inactive (fuel : nat) (thread : string) :
  forall (run run' : ThreadRun) (s s' : state W),
    poll E cs A json_loads fuel thread run s = (inr (Some run'), s') ->
    active (run_status run') = false.
Proof.
  induction fuel as [|fuel IH]; intros run run' s s' H; simpl in H;
    destruct (active (run_status run)) eqn:Hact.
  - discriminate.
  - apply ret_returns in H as [H _]. now inversion H; subst.
  - apply bind_returns in H as (r1 & s1 & _ & H). exact (IH _ _ _ _ H).
  - apply ret_returns in H as [H _]. now inversion H; subst.
Qed.




(** C9, amended: when the loop hands over the run, it has left the three
    active statuses.  If its status is completed and the listing of the
    messages returns, the answer is "No response received from agent" when
    the assistant wrote none; otherwise the most recent message of the
    assistant decides: when its content starts with a text part the answer
    is that text; when its content is empty or starts with another part,
    reading it raises and the answer is "Error: " followed by the text of
    the exception ("list index out of range" for an empty content).  For
    any other status the answer is "Run failed with status: " followed by
    the status, no message is fetched and nothing is raised. *)
Theorem terminal_status_answer (fuel : nat) (msg thread : string)
    (run0 run : ThreadRun) (s s4 : state W) (w1 w2 w3 : W) :
  create_thread A (world s) = (inr thread, w1) ->
  create_message A thread "user" msg w1 = (inr tt, w2) ->
  create_run A thread agent register_tools w2 = (inr run0, w3) ->
  poll E cs A json_loads fuel thread run0
    {| world := w3;
       trace := trace s ++ [EvCreateThread; EvCreateMessage thread "user" msg;
                            EvCreateRun thread agent] |}
  = (inr (Some run), s4) ->
  active (run_status run) = false
  /\ (run_status run = COMPLETED ->
      forall msgs w5,
        list_messages A thread (world s4) = (inr msgs, w5) ->
        let s5 := {| world := w5; trace := trace s4 ++ [EvListMessages thread] |} in
        (most_recent_assistant msgs = None ->
         chat_with_master_agent E cs A json_loads agent fuel msg s
         = (Some no_response, s5))
        /\ (forall m text parts,
              most_recent_assistant msgs = Some m ->
              content m = MessageTextContent text :: parts ->
              chat_with_master_agent E cs A json_loads agent fuel msg s
              = (Some text, s5))
        /\ (forall m,
              most_recent_assistant msgs = Some m ->
              (forall text parts, content m <> MessageTextContent text :: parts) ->
              exists e,
                chat_with_master_agent E cs A json_loads agent fuel msg s
                = (Some ("Error: " ++ exn_str e)%string,
                   {| world := w5;
                      trace := trace s4 ++ [EvListMessages thread; EvRaised e] |})
                /\ (content m = [] -> exn_str e = "list index out of range")))
  /\ (run_status run <> COMPLETED ->
      exists out,
        chat_with_master_agent E cs A json_loads agent fuel msg s
        = (Some out, s4)
        /\ out = ("Run failed with status: " ++ status_str A (run_status run))%string
        /\ PyStr.contains out (status_str A (run_status run))).
Proof.
  intros Hth Hmsg Hrun Hpoll.
  split; [exact (poll_returns_inactive _ _ _ _ _ _ Hpoll)|].
  assert (Hchat : chat_with_master_agent E cs A json_loads agent fuel msg s
                  = match final_answer A thread run s4 with
                    | (inl e, s') => (Some ("Error: " ++ exn_str e)%string, s')
                    | (inr answer, s') => (Some answer, s')
                    end).
  { unfold chat_with_master_agent, try_except, chat_body.
    unfold bind at 1, call at 1. rewrite Hth.
    unfold bind at 1, call at 1. cbn [world trace]. rewrite Hmsg.
    unfold bind at 1, call at 1. cbn [world trace]. rewrite Hrun.
    cbn [raised_by]. rewrite !trace_snoc_assoc.
    unfold bind at 1. rewrite Hpoll. unfold bind, ret.
    now destruct (final_answer A thread run s4) as [[e|answer] s']. }
  rewrite Hchat. unfold final_answer. split.
  - intros Hst msgs w5 Hlist. rewrite Hst. cbn [RunStatus_eqb].
    unfold bind, call. rewrite Hlist. cbn zeta. cbn [raised_by].
    assert (Hfind : forall l,
              latest_assistant_text l
              = match most_recent_assistant l with
                | Some m => message_text m
                | None => inr no_response
                end).
    { induction l as [|m l IH]; cbn; [reflexivity|].
      destruct (String.eqb (role m) "assistant"); [reflexivity | exact IH]. }
    rewrite Hfind. split; [|split].
    + intros ->. reflexivity.
    + intros m text parts -> Hc. unfold message_text. rewrite Hc. reflexivity.
    + intros m -> Hc. unfold message_text.
      destruct (content m) as [|[value|file] parts].
      * eexists. unfold lift, raise, log. cbn [trace world].
        rewrite <- app_assoc.
        split; reflexivity.
      * now contradiction (Hc value parts).
      * eexists. unfold lift, raise, log. cbn [trace world].
        rewrite <- app_assoc.
        split; [reflexivity | discriminate].
  - intros Hst.
    assert (Hne : RunStatus_eqb (run_status run) COMPLETED = false).
    { destruct (run_status run); try reflexivity. now contradiction Hst. }
    rewrite Hne. unfold ret. eexists. split; [reflexivity|].
    split; [reflexivity|].
    exists "Run failed with status: ", EmptyString.
    now rewrite append_empty.
Qed.

End OrchestratorFacts.

(** ** The theorems at work on the sample instances *)

Import Sample.


(** C1: a statement that starts with neither SELECT nor UPDATE is handed to
    the engine before it is classified.  On the sample store
    "DELETE FROM users" is executed, the deletion is committed on leaving
    the connection block, and only then the rejection is returned. *)
Theorem rejected_delete_is_executed :
  leading_keyword delete_users "SELECT" = false
  /\ leading_keyword delete_users "UPDATE" = false
  /\ fst (run_query delete_users) = failure unsupported_msg
  /\ trace (snd (run_query delete_users))
     = [EvConnect "dsn"; EvCursor; EvExecute (VStr delete_users);
        EvCursorExit; EvConnExit false]
  /\ committed (world db0) = users
  /\ committed (world (snd (run_query delete_users))) = [].
Proof. repeat split. Qed.

Lemma rejected_statement_is_executed_witness :
  run_query delete_users
  = (failure unsupported_msg,
     {| world := set_db (world db0) [] [] None 2;
        trace := [EvConnect "dsn"; EvCursor; EvExecute (VStr delete_users);
                  EvCursorExit; EvConnExit false] |}).
Proof.
  eapply (rejected_statement_is_executed engine "dsn" delete_users db0);
    reflexivity.
Defined.

Lemma select_returns_rows_witness :
  fst (run_query select_users)
  = {| success := true;
       data := Some [[("id", VInt 1); ("name", VStr "ada")];
                     [("id", VInt 2); ("name", VStr "bob")]];
       row_count := 2;
       columns := Some ["id"; "name"];
       error := None;
       message := None |}.
Proof.
  assert (Hlen : Forall (fun row => length row = length ["id"; "name"])
                        (map row_of users)) by repeat constructor.
  destruct (select_returns_rows engine "dsn" select_users db0
              (map row_of users) ["id"; "name"] _ _ _ _ _ _
              eq_refl eq_refl eq_refl eq_refl eq_refl eq_refl Hlen
              eq_refl eq_refl)
    as (d & Heq & _ & Hd & _).
  unfold run_query. rewrite Heq, Hd. reflexivity.
Defined.

Lemma update_commits_and_reports_witness :
  fst (run_query update_users)
  = {| success := true; data := None; row_count := 2; columns := None;
       error := None; message := Some "Updated 2 row(s)" |}
  /\ In EvCommit (trace (snd (run_query update_users)))
  /\ committed (world (snd (run_query update_users))) = [(1%Z, "x"); (2%Z, "x")].
Proof.
  destruct (update_commits_and_reports engine "dsn" update_users db0 2
              _ _ _ _ _ _
              eq_refl eq_refl eq_refl eq_refl eq_refl eq_refl eq_refl eq_refl)
    as (msg & Heq & Hmsg & _).
  unfold run_query. rewrite Heq, Hmsg. cbn.
  repeat split. right. right. right. now left.
Defined.

(** A refused connection and a rejected statement, as data. *)
Example empty_statement_is_an_engine_error :
  fst (run_query EmptyString) = failure "can't execute an empty query".
Proof. reflexivity. Qed.

Example list_query_is_an_unexpected_error :
  fst (execute_query engine "dsn" (VList [VStr select_users]) db0)
  = failure "Unexpected error: argument 1 must be a string or unicode object: got list instead".
Proof. reflexivity. Qed.

Example empty_list_query_is_an_engine_error :
  fst (execute_query engine "dsn" (VList []) db0)
  = failure "can't execute an empty query".
Proof. reflexivity. Qed.




Lemma terminal_status_answer_witness :
  fst (chat 2 "test" answered) = Some "42"
  /\ fst (chat 1 "test" failing) = Some "Run failed with status: RunStatus.FAILED".
Proof.
  split.
  - pose (w3 := world0 [run_asking [call_select]; run_in IN_PROGRESS;
                        run_in COMPLETED] (run_in COMPLETED) thread_42).
    pose (p := poll engine "dsn" service loads 2 "thread_1" (run_in QUEUED)
                 {| world := w3;
                    trace := trace answered
                             ++ [EvCreateThread;
                                 EvCreateMessage "thread_1" "user" "test";
                                 EvCreateRun "thread_1" "agent_1"] |}).
    assert (Hfst : fst p = inr (Some (run_in COMPLETED)))
      by (vm_compute; reflexivity).
    assert (Hlist : list_messages service "thread_1" (world (snd p))
                    = (inr thread_42, world (snd p)))
      by (vm_compute; reflexivity).
    destruct (terminal_status_answer engine "dsn" service loads "agent_1"
                2 "test" "thread_1" (run_in QUEUED) (run_in COMPLETED)
                answered (snd p) (world answered) (world answered) w3
                eq_refl eq_refl eq_refl (pair_eta p _ Hfst))
      as (_ & Hdone & _).
    destruct (Hdone eq_refl thread_42 _ Hlist) as (_ & Htext & _).
    unfold chat. now rewrite (Htext _ "42" [] eq_refl eq_refl).
  - pose (w3 := world0 [run_in FAILED] (run_in FAILED) []).
    pose (p := poll engine "dsn" service loads 1 "thread_1" (run_in QUEUED)
                 {| world := w3;
                    trace := trace failing
                             ++ [EvCreateThread;
                                 EvCreateMessage "thread_1" "user" "test";
                                 EvCreateRun "thread_1" "agent_1"] |}).
    assert (Hfst : fst p = inr (Some (run_in FAILED)))
      by (vm_compute; reflexivity).
    destruct (terminal_status_answer engine "dsn" service loads "agent_1"
                1 "test" "thread_1" (run_in QUEUED) (run_in FAILED)
                failing (snd p) (world failing) (world failing) w3
                eq_refl eq_refl eq_refl (pair_eta p _ Hfst))
      as (_ & _ & Hfail).
    destruct Hfail as (out & Heq & Hout & _); [discriminate|].
    unfold chat. now rewrite Heq, Hout.
Defined.

(** C9, as stated, fails: the run is completed and the assistant has
    written, but its latest message has no text to return.  Where the
    message starts with an image, and where its content is empty, line 161
    raises and the answer is an "Error: ..." string: neither the text of a
    message nor "No response received from agent". *)
Lemma answer_without_text_is_an_error :
  (exists m f parts,
     most_recent_assistant Demo.thread_image = Some m
     /\ content m = MessageImageFileContent f :: parts
     /\ exists why,
          fst (chat 1 "test" (Demo.completed Demo.thread_image))
          = Some ("Error: " ++ why)%string)
  /\ (exists m,
        most_recent_assistant Demo.thread_blank = Some m
        /\ content m = []
        /\ fst (chat 1 "test" (Demo.completed Demo.thread_blank))
           = Some "Error: list index out of range").
Proof.
  split.
  - eexists _, _, _. split; [reflexivity|]. split; [reflexivity|].
    eexists. vm_compute. reflexivity.
  - eexists. split; [reflexivity|]. split; [reflexivity|].
    vm_compute. reflexivity.
Qed.

(** C5, as stated, fails: a pending request that names another tool gets
    no output in the batch submitted for it. *)
Lemma other_tool_request_gets_no_output :
  submitted (trace (snd (poll_once engine "dsn" service loads "thread_1"
                           (run_in QUEUED) (asking [call_other]))))
  = [[]]
  /\ ~ each_answered_once [call_other] [].
Proof.
  split; [reflexivity|].
  intros H. destruct (H call_other (or_introl eq_refl)) as (o & [] & _).
Qed.

Lemma requires_action_submits_outputs_witness :
  exists outs,
    submitted (trace (snd (poll_once engine "dsn" service loads "thread_1"
                             (run_in QUEUED)
                             (asking [call_select; call_other]))))
    = [outs]
    /\ map tool_call_id outs = ["call_1"].
Proof.
  destruct (requires_action_submits_outputs engine "dsn" service loads
              "thread_1" (run_in QUEUED) _ [call_select; call_other] _
              (asking [call_select; call_other]) _ _
              eq_refl eq_refl eq_refl eq_refl)
    as (Hids & dbevs & Hdb & Hpoll).
  eexists. split; [reflexivity | exact Hids].
Defined.



(** C7, as stated, fails twice.  A request whose arguments are cut short
    fails the whole batch, the request before it included; and the empty
    query of a request without "query" comes back, on an engine that
    rejects the empty statement as psycopg2 does, as the error of the
    engine and not as the rejection of the allow-list. *)
Lemma bad_arguments_fail_the_batch :
  (is_db_call call_select = true /\ is_db_call call_cut_short = true
   /\ exists msg, fst (handle [call_select; call_cut_short] db0)
                  = inl (JSONDecodeError msg))
  /\ (loads (tc_arguments call_no_query) = inr (VDict [])
      /\ fst (run_query EmptyString) = failure "can't execute an empty query"
      /\ fst (run_query EmptyString) <> failure unsupported_msg).
Proof.
  split; [split; [|split]; [reflexivity | reflexivity | eexists; reflexivity]|].
  split; [|split]; [reflexivity | reflexivity | discriminate].
Qed.

Lemma missing_query_defaults_to_empty_witness :
  exists r s' body,
    run_query EmptyString = (r, s')
    /\ success r = false
    /\ handle [call_no_query] db0
       = (inr [{| tool_call_id := "call_3"; output := body |}], s').
Proof.
  destruct (missing_query_defaults_to_empty engine "dsn" loads
              call_no_query [] [] [] db0 eq_refl eq_refl eq_refl)
    as (_ & r & s' & body & Hr & Hs & _ & _ & _ & _ & Hloop).
  exists r, s', body. split; [exact Hr|]. split; [exact Hs|].
  unfold handle, _handle_tool_calls. rewrite Hloop. reflexivity.
Defined.

(** The scripted turn of the specification: the run goes queued,
    requires-action with one db_call request, completed with the assistant
    message "42".  The turn returns "42" and submits tool outputs once, one
    output in the batch, for that request. *)
Theorem scripted_turn_end_to_end :
  fst (chat 2 "test" answered) = Some "42"
  /\ exists out,
       submitted (trace (snd (chat 2 "test" answered))) = [[out]]
       /\ tool_call_id out = tc_id call_select.
Proof.
  split; [vm_compute; reflexivity|].
  eexists. split; vm_compute; reflexivity.
Qed.

(** * Further properties *)

(** ** config.py and the script of database_manager.py *)

Section ConfigFacts.

Import Config.

Lemma append_cancel_l (a b c : string) : (a ++ b)%string = (a ++ c)%string -> b = c.
Proof.
  induction a as [|x a IH]; simpl; intros H; [exact H|].
  inversion H. auto.
Qed.

Lemma append_assoc_r (a b c : string) :
  ((a ++ b) ++ c)%string = (a ++ (b ++ c))%string.
Proof. induction a as [|x a IH]; simpl; [reflexivity | now rewrite IH]. Qed.

(** Two texts that split at the first occurrence of a separator split the
    same way. *)
Lemma split_at_separator (c : ascii) (a a' r r' : string) :
  has_char c a = false -> has_char c a' = false ->
  (a ++ String c r)%string = (a' ++ String c r')%string ->
  a = a' /\ r = r'.
Proof.
  revert a'. induction a as [|x a IH]; intros [|x' a'] Ha Ha' H; simpl in *.
  - inversion H. now split.
  - inversion H; subst. rewrite Ascii.eqb_refl in Ha'. discriminate.
  - inversion H; subst. rewrite Ascii.eqb_refl in Ha. discriminate.
  - inversion H; subst.
    apply orb_false_elim in Ha as [_ Ha]. apply orb_false_elim in Ha' as [_ Ha'].
    destruct (IH a' Ha Ha' H2) as [-> ->]. now split.
Qed.

(** X2: the connection string that database_manager.py builds when run as
    a script is the one of [AzureConfig.from_env] exactly when DB_HOST and
    DB_PORT are both set: the script has no default for them and writes
    "None" where the configuration writes "localhost" and "5432". *)
Theorem script_agrees_with_config_iff (env : environ) :
  main_connection_string env = get_db_connection_string (from_env env)
  <-> env "DB_HOST" <> None /\ env "DB_PORT" <> None.
Proof.
  unfold main_connection_string, get_db_connection_string, from_env,
    getenv, getenv_or. cbn [db_user db_password db_host db_port db_name].
  destruct (env "DB_HOST") as [h|], (env "DB_PORT") as [p|]; cbn [fstr].
  - split; [intros _; split; discriminate | reflexivity].
  - split; [intros H; exfalso | intros [_ H]; now contradiction H].
    do 7 apply append_cancel_l in H. discriminate.
  - split; [intros H; exfalso | intros [H _]; now contradiction H].
    do 5 apply append_cancel_l in H. discriminate.
  - split; [intros H; exfalso | intros [H _]; now contradiction H].
    do 5 apply append_cancel_l in H. discriminate.
Qed.

(** X3: nothing is escaped in the connection string: a colon may sit in the
    user name or in the password, and the two readings give one string. *)
Theorem connection_string_is_ambiguous (cfg : AzureConfig) (a b c : string) :
  get_db_connection_string
    {| project_connection_string := project_connection_string cfg;
       master_agent_name := master_agent_name cfg;
       query_agent_name := query_agent_name cfg;
       db_host := db_host cfg; db_port := db_port cfg; db_name := db_name cfg;
       db_user := Some (a ++ ":" ++ b)%string; db_password := Some c |}
  = get_db_connection_string
      {| project_connection_string := project_connection_string cfg;
         master_agent_name := master_agent_name cfg;
         query_agent_name := query_agent_name cfg;
         db_host := db_host cfg; db_port := db_port cfg; db_name := db_name cfg;
         db_user := Some a; db_password := Some (b ++ ":" ++ c)%string |}.
Proof.
  unfold get_db_connection_string. cbn [db_user db_password db_host db_port db_name fstr].
  rewrite !append_assoc_r. reflexivity.
Qed.

(** X4: where the user name and the host hold no colon, the password no
    at-sign and the port no slash, the connection string determines its
    five components. *)
Theorem connection_string_determines_components (c1 c2 : AzureConfig) :
  has_char ":" (fstr (db_user c1)) = false ->
  has_char ":" (fstr (db_user c2)) = false ->
  has_char "@" (fstr (db_password c1)) = false ->
  has_char "@" (fstr (db_password c2)) = false ->
  has_char ":" (fstr (db_host c1)) = false ->
  has_char ":" (fstr (db_host c2)) = false ->
  has_char "/" (fstr (db_port c1)) = false ->
  has_char "/" (fstr (db_port c2)) = false ->
  get_db_connection_string c1 = get_db_connection_string c2 ->
  fstr (db_user c1) = fstr (db_user c2)
  /\ fstr (db_password c1) = fstr (db_password c2)
  /\ fstr (db_host c1) = fstr (db_host c2)
  /\ fstr (db_port c1) = fstr (db_port c2)
  /\ fstr (db_name c1) = fstr (db_name c2).
Proof.
  unfold get_db_connection_string.
  intros Hu1 Hu2 Hp1 Hp2 Hh1 Hh2 Ho1 Ho2 H.
  apply append_cancel_l in H.
  apply (split_at_separator ":" _ _ _ _ Hu1 Hu2) in H as [Hu H].
  apply (split_at_separator "@" _ _ _ _ Hp1 Hp2) in H as [Hp H].
  apply (split_at_separator ":" _ _ _ _ Hh1 Hh2) in H as [Hh H].
  apply (split_at_separator "/" _ _ _ _ Ho1 Ho2) in H as [Ho H].
  auto.
Qed.

End ConfigFacts.

Lemma connection_string_determines_components_witness :
  fstr (Config.db_user (Config.from_env Demo.env_local)) = "app"
  /\ fstr (Config.db_password (Config.from_env Demo.env_local)) = "s3cret"
  /\ fstr (Config.db_host (Config.from_env Demo.env_local)) = "db.internal"
  /\ fstr (Config.db_port (Config.from_env Demo.env_local)) = "6543"
  /\ fstr (Config.db_name (Config.from_env Demo.env_local)) = "estate".
Proof.
  apply (connection_string_determines_components
           (Config.from_env Demo.env_local)
           {| Config.project_connection_string := None;
              Config.master_agent_name := None;
              Config.query_agent_name := None;
              Config.db_host := Some "db.internal";
              Config.db_port := Some "6543";
              Config.db_name := Some "estate";
              Config.db_user := Some "app";
              Config.db_password := Some "s3cret" |}); reflexivity.
Defined.

(** ** _initialize_agents *)

Section AgentDirectoryFacts.

Context {W : Type}.
Variable list_agents : W -> res (list Agent) * W.
Variable config : Config.AzureConfig.

Let mn := Config.master_agent_name config.
Let qn := Config.query_agent_name config.

Lemma find_app_first {A} (f : A -> bool) (l1 l2 : list A) :
  find f (l1 ++ l2)
  = match find f l1 with
    | Some x => Some x
    | None => find f l2
    end.
Proof.
  induction l1 as [|x l1 IH]; simpl; [reflexivity|].
  now destruct (f x).
Qed.

Lemma last_named_cons (n : option string) (a : Agent) (l : list Agent) :
  last_named n (a :: l)
  = match last_named n l with
    | Some x => Some x
    | None => if named n a then Some a else None
    end.
Proof.
  unfold last_named. simpl. rewrite find_app_first. simpl.
  now destruct (named n a).
Qed.

Lemma name_eqb_eq (a b : option string) : name_eqb a b = true <-> a = b.
Proof.
  destruct a as [x|], b as [y|]; simpl; try (split; congruence).
  rewrite String.eqb_eq. split; congruence.
Qed.

Lemma last_named_none (n : option string) (l : list Agent) :
  last_named n l = None <-> existsb (named n) l = false.
Proof.
  induction l as [|a l IH]; [now split|].
  rewrite last_named_cons. simpl.
  destruct (last_named n l) as [x|].
  - destruct IH as [_ IH]. destruct (existsb (named n) l).
    + rewrite orb_true_r. split; discriminate.
    + now specialize (IH eq_refl).
  - destruct IH as [IH _]. rewrite (IH eq_refl), orb_false_r.
    destruct (named n a); split; congruence.
Qed.

(** What the loop leaves in the two attributes: the last agent with the
    name of the master, and the last one with the name of the query agent
    among those that do not carry the name of the master. *)
Lemma find_agents_last (agents : list Agent) (m0 q0 : option Agent) :
  find_agents config agents m0 q0
  = (match last_named mn agents with Some a => Some a | None => m0 end,
     match find (fun a => negb (named mn a) && named qn a) (rev agents) with
     | Some a => Some a
     | None => q0
     end).
Proof.
  revert m0 q0. induction agents as [|a agents IH]; intros m0 q0; [reflexivity|].
  cbn [find_agents]. rewrite last_named_cons. cbn [rev]. rewrite find_app_first.
  cbn [find]. fold mn qn. unfold named in *. rewrite !IH.
  destruct (name_eqb (agent_name a) mn), (name_eqb (agent_name a) qn),
    (last_named mn agents), (find _ (rev agents)); reflexivity.
Qed.

Lemma find_other_name (agents : list Agent) :
  name_eqb mn qn = false ->
  find (fun a => negb (named mn a) && named qn a) agents = find (named qn) agents.
Proof.
  intros Hne. induction agents as [|a agents IH]; [reflexivity|]. simpl.
  rewrite IH. unfold named.
  destruct (name_eqb (agent_name a) qn) eqn:Hq; [|now rewrite andb_false_r].
  destruct (name_eqb (agent_name a) mn) eqn:Hm; [|reflexivity].
  apply name_eqb_eq in Hq, Hm. rewrite <- Hq, <- Hm in Hne.
  assert (name_eqb (agent_name a) (agent_name a) = true) by now apply name_eqb_eq.
  congruence.
Qed.

Lemma find_same_name (agents : list Agent) :
  name_eqb mn qn = true ->
  find (fun a => negb (named mn a) && named qn a) agents = None.
Proof.
  intros He. apply name_eqb_eq in He. rewrite <- He.
  induction agents as [|a agents IH]; [reflexivity|]. simpl.
  now destruct (named mn a).
Qed.

(** X5: given the listing of the service, [_initialize_agents] returns the
    pair (master, query) exactly when the two configured names differ and
    both are carried by listed agents; the agents kept are then the last
    ones of the listing with those names. *)
Theorem initialize_agents_succeeds_iff (s : state W) (agents : list Agent)
    (w' : W) (master query : Agent) :
  list_agents (world s) = (inr agents, w') ->
  fst (_initialize_agents list_agents config s) = inr (master, query)
  <-> name_eqb mn qn = false
      /\ last_named mn agents = Some master
      /\ last_named qn agents = Some query.
Proof.
  intros Hl. unfold _initialize_agents, bind, ask. rewrite Hl. cbn [raised_by].
  rewrite find_agents_last. fold mn qn.
  destruct (name_eqb mn qn) eqn:Hnames.
  - rewrite (find_same_name _ Hnames).
    destruct (last_named mn agents); cbn; split;
      try discriminate; intros [H _]; discriminate.
  - rewrite (find_other_name _ Hnames). fold (last_named qn agents).
    destruct (last_named mn agents) as [m|];
      [destruct (last_named qn agents) as [q|]|]; cbn; split;
      try discriminate; try (intros (_ & H1 & H2); discriminate).
    + intros H. inversion H; subst. auto.
    + intros (_ & H1 & H2). inversion H1; inversion H2; now subst.
Qed.

(** X6: how [_initialize_agents] fails.  With no listed agent of the
    master's name it raises "Master agent '...' not found", whatever the
    query agent.  With the master found it raises "Query agent '...' not
    found" when no listed agent carries the query name, and also whenever
    the two configured names are equal, although an agent of that name is
    listed: the [elif] of line 38 is never reached for it. *)
Theorem initialize_agents_failure (s : state W) (agents : list Agent) (w' : W) :
  list_agents (world s) = (inr agents, w') ->
  (existsb (named mn) agents = false ->
   fst (_initialize_agents list_agents config s) = inl (not_found "Master" mn))
  /\ (existsb (named mn) agents = true ->
      name_eqb mn qn = true \/ existsb (named qn) agents = false ->
      fst (_initialize_agents list_agents config s) = inl (not_found "Query" qn)).
Proof.
  intros Hl. unfold _initialize_agents, bind, ask. rewrite Hl. cbn [raised_by].
  rewrite find_agents_last. fold mn qn. split.
  - intros Hm. apply last_named_none in Hm. now rewrite Hm.
  - intros Hm Hq.
    destruct (last_named mn agents) as [m|] eqn:Hlast.
    2:{ apply last_named_none in Hlast. congruence. }
    destruct (name_eqb mn qn) eqn:Hnames.
    + now rewrite (find_same_name _ Hnames).
    + destruct Hq as [Hq|Hq]; [discriminate|].
      rewrite (find_other_name _ Hnames). fold (last_named qn agents).
      apply last_named_none in Hq. now rewrite Hq.
Qed.

End AgentDirectoryFacts.

Lemma initialize_agents_succeeds_iff_witness :
  fst (_initialize_agents Demo.list_roster Demo.config_default Sample.db0)
  = inr (Demo.agent "asst_4" "master-agent", Demo.agent "asst_1" "query-agent").
Proof.
  apply (initialize_agents_succeeds_iff Demo.list_roster Demo.config_default
           Sample.db0 Demo.roster (world Sample.db0) _ _ eq_refl).
  repeat split.
Defined.

Lemma initialize_agents_failure_witness :
  fst (_initialize_agents Demo.list_roster Demo.config_same_names Sample.db0)
  = inl (not_found "Query" (Some "master-agent")).
Proof.
  apply (initialize_agents_failure Demo.list_roster Demo.config_same_names
           Sample.db0 Demo.roster (world Sample.db0) eq_refl);
    [reflexivity | now left].
Defined.

(** ** More on execute_query *)

Section RowMappingFacts.

Lemma get_set (d : pydict) (k k' : string) (v : pyval) :
  PyDict.get (PyDict.set d k v) k'
  = if String.eqb k k' then Some v else PyDict.get d k'.
Proof.
  induction d as [|[k0 v0] d IH]; simpl.
  - reflexivity.
  - destruct (String.eqb_spec k0 k) as [->|Hne]; simpl.
    + now destruct (String.eqb k k').
    + rewrite IH. destruct (String.eqb_spec k0 k') as [->|Hne'];
        [|reflexivity].
      destruct (String.eqb_spec k k') as [->|]; [now contradiction Hne|reflexivity].
Qed.

Lemma set_keys_nodup (d : pydict) (k : string) (v : pyval) :
  NoDup (PyDict.keys d) -> NoDup (PyDict.keys (PyDict.set d k v)).
Proof.
  induction d as [|[k0 v0] d IH]; simpl; intros Hnd.
  - repeat constructor. intros [].
  - inversion Hnd as [|? ? Hin Hnd']; subst.
    destruct (String.eqb_spec k0 k) as [->|Hne]; simpl.
    + now constructor.
    + constructor; [|now apply IH].
      intros Hin'. apply (set_keys_in d k v k0) in Hin' as [->|Hin'];
        [now contradiction Hne | now contradiction Hin].
Qed.

Lemma fold_set_get (pairs : list (string * pyval)) (d : pydict) (c : string) :
  PyDict.get (fold_left (fun d kv => PyDict.set d (fst kv) (snd kv)) pairs d) c
  = match last_value (map fst pairs) (map snd pairs) c with
    | Some x => Some x
    | None => PyDict.get d c
    end.
Proof.
  revert d. induction pairs as [|[k v] pairs IH]; intros d;
    cbn [fold_left map fst snd last_value]; [reflexivity|].
  rewrite IH, get_set.
  destruct (last_value (map fst pairs) (map snd pairs) c); [reflexivity|].
  now destruct (String.eqb k c).
Qed.

Lemma fold_set_nodup_keys (pairs : list (string * pyval)) (d : pydict) :
  NoDup (PyDict.keys d) ->
  NoDup (PyDict.keys (fold_left (fun d kv => PyDict.set d (fst kv) (snd kv)) pairs d)).
Proof.
  revert d. induction pairs as [|[k v] pairs IH]; intros d Hd; simpl; [exact Hd|].
  apply IH. now apply set_keys_nodup.
Qed.

Lemma zip_unzip (cols : list string) (row : list pyval) :
  length row = length cols ->
  map fst (py_zip cols row) = cols /\ map snd (py_zip cols row) = row.
Proof.
  unfold py_zip. revert row.
  induction cols as [|c cols IH]; intros [|v row] Hlen; simpl in *;
    try discriminate; [now split|].
  destruct (IH row) as [-> ->]; [lia | now split].
Qed.

(** X7: the mapping [dict(zip(columns, row))] of line 32, for a row with
    one value per column.  Its keys are pairwise distinct, it has one entry
    for each distinct column name, and under a name it holds the value of
    the last column of that name: where two columns share a name, the value
    of the earlier one is not in the result. *)
Theorem row_mapping_keeps_last_value (cols : list string) (row : list pyval) :
  length row = length cols ->
  let m := PyDict.of_pairs (py_zip cols row) in
  NoDup (PyDict.keys m)
  /\ length m = length (distinct cols)
  /\ forall c, PyDict.get m c = last_value cols row c.
Proof.
  intros Hlen m. destruct (zip_unzip cols row Hlen) as [Hk Hv].
  assert (Hnd : NoDup (PyDict.keys m)).
  { apply fold_set_nodup_keys. constructor. }
  split; [exact Hnd|]. split.
  - transitivity (length (PyDict.keys m)); [symmetry; apply length_map|].
    apply Permutation_length, NoDup_Permutation;
      [exact Hnd | apply NoDup_nodup|].
    intros x. unfold m, distinct. rewrite of_pairs_keys_in, Hk, nodup_In.
    reflexivity.
  - intros c. unfold m, PyDict.of_pairs. rewrite fold_set_get, Hk, Hv.
    now destruct (last_value cols row c).
Qed.

End RowMappingFacts.

Lemma row_mapping_keeps_last_value_witness :
  let m := PyDict.of_pairs (py_zip ["id"; "name"; "id"]
                                   [VInt 1; VStr "ada"; VInt 7]) in
  NoDup (PyDict.keys m)
  /\ length m = 2%nat
  /\ forall c, PyDict.get m c
               = last_value ["id"; "name"; "id"] [VInt 1; VStr "ada"; VInt 7] c.
Proof.
  exact (row_mapping_keeps_last_value ["id"; "name"; "id"]
           [VInt 1; VStr "ada"; VInt 7] eq_refl).
Defined.

Section ResultShapeFacts.

Context {W : Type}.
Variable E : Engine W.
Variable cs : string.

(** The three results the body of the [try] can return, with the
    classification that leads to each. *)
Lemma body_result_cases (query : pyval) (s s' : state W) (r : QueryResult) :
  execute_query_body E cs query s = (inr r, s') ->
  exists q,
    query = VStr q
    /\ ((leading_keyword q "SELECT" = true
         /\ exists d cols,
              r = {| success := true; data := Some d;
                     row_count := Z.of_nat (length d); columns := Some cols;
                     error := None; message := None |})
        \/ (leading_keyword q "SELECT" = false
            /\ leading_keyword q "UPDATE" = true
            /\ exists n,
                 r = {| success := true; data := None; row_count := n;
                        columns := None; error := None;
                        message := Some ("Updated " ++ PyStr.of_int n
                                           ++ " row(s)")%string |})
        \/ (leading_keyword q "SELECT" = false
            /\ leading_keyword q "UPDATE" = false
            /\ r = failure unsupported_msg)).
Proof.
  unfold execute_query_body. intros H.
  apply with_returns in H as (_ & s1 & s2 & _ & H & _).
  apply with_returns in H as (_ & s3 & s4 & _ & H & _).
  apply bind_returns in H as (_ & s5 & _ & H).
  apply bind_returns in H as (q & s6 & Hq & H).
  apply lift_returns in Hq as [Hq _].
  assert (Hquery : query = VStr q).
  { destruct query; cbn in Hq; inversion Hq. reflexivity. }
  exists q. split; [exact Hquery|].
  destruct (leading_keyword q "SELECT") eqn:Hsel.
  - apply bind_returns in H as (rows & s7 & _ & H).
    apply bind_returns in H as (description & s8 & _ & H).
    apply bind_returns in H as (columns & s9 & _ & H).
    apply ret_returns in H as [<- _]. left. split; [reflexivity|].
    now eexists; eexists.
  - destruct (leading_keyword q "UPDATE") eqn:Hupd.
    + apply bind_returns in H as (affected & s7 & _ & H).
      apply bind_returns in H as (_ & s8 & _ & H).
      apply ret_returns in H as [<- _]. right. left.
      repeat split. now eexists.
    + apply ret_returns in H as [<- _]. right. right. now repeat split.
Qed.

(** X8: the shape of every result of [execute_query].  data and columns are
    there together or not at all; a result with data is a success for a
    statement classified SELECT, with row_count the number of mappings and
    no message; a result with a message is a success for a statement
    classified UPDATE and not SELECT, without data, the message being
    "Updated <row_count> row(s)". *)
Theorem result_shape (query : pyval) (s : state W) :
  let r := fst (execute_query E cs query s) in
  (data r = None <-> columns r = None)
  /\ (forall d, data r = Some d ->
        success r = true /\ row_count r = Z.of_nat (length d)
        /\ message r = None
        /\ exists q, query = VStr q /\ leading_keyword q "SELECT" = true)
  /\ (forall m, message r = Some m ->
        success r = true /\ data r = None
        /\ m = ("Updated " ++ PyStr.of_int (row_count r) ++ " row(s)")%string
        /\ exists q, query = VStr q /\ leading_keyword q "SELECT" = false
                     /\ leading_keyword q "UPDATE" = true).
Proof.
  unfold execute_query, try_except.
  destruct (execute_query_body E cs query s) as [[[msg|cls msg]|r] s'] eqn:H;
    cbn [fst].
  - cbn. repeat split; intros; discriminate.
  - cbn. repeat split; intros; discriminate.
  - destruct (body_result_cases _ _ _ _ H)
      as (q & -> & [(Hs & d & cols & ->) | [(Hs & Hu & n & ->) | (Hs & Hu & ->)]]);
      cbn.
    + split; [split; discriminate|]. split.
      * intros d' Hd. inversion Hd; subst. repeat split. now exists q.
      * intros m Hm. discriminate.
    + split; [now split|]. split.
      * intros d Hd. discriminate.
      * intros m Hm. inversion Hm; subst. repeat split. now exists q.
    + split; [now split|]. split; intros ? Hx; discriminate.
Qed.

End ResultShapeFacts.

(** ** The two [with] blocks of execute_query *)

Section BlockFacts.

Context {W : Type}.

Lemma count_none (p : event -> bool) (tr : list event) :
  forallb (fun ev => negb (p ev)) tr = true -> count p tr = 0%nat.
Proof.
  unfold count. induction tr as [|ev tr IH]; simpl; [reflexivity|].
  intros H. apply andb_true_iff in H as [Hev Htr].
  apply negb_true_iff in Hev. rewrite Hev. now apply IH.
Qed.

(** The calls of a [with] block whose manager is entered and left through
    calls on a library: the entering call alone when it raises; otherwise
    the calls of the body, then the leaving call, which is told whether the
    body raised. *)
Lemma with_trace {R A} (ev1 : event) (op1 : W -> res R * W)
    (evx : bool -> event) (opx : bool -> W -> res unit * W)
    (body : R -> M W A) (P : event -> bool) (s s' : state W) (r : res A) :
  (forall x, raises_last (body x)) ->
  (forall x, calls_only P (body x)) ->
  with_ (call ev1 op1) (fun b => call (evx b) (opx b)) body s = (r, s') ->
  (exists e w, op1 (world s) = (inl e, w)
               /\ trace s' = trace s ++ [ev1; EvRaised e])
  \/ (exists x w rb s2 inside (rx : res unit),
        op1 (world s) = (inr x, w)
        /\ body x {| world := w; trace := trace s ++ [ev1] |} = (rb, s2)
        /\ trace s2 = (trace s ++ [ev1]) ++ inside
        /\ forallb P inside = true
        /\ trace s' = trace s ++ ev1 :: inside
                      ++ evx (raised_in inside) :: raised_by rx).
Proof.
  intros Hlast Hcalls. unfold with_, call at 1.
  destruct (op1 (world s)) as [[e|x] w] eqn:Hop; cbn [raised_by].
  - intros H. inversion H; subst. left. now exists e, w.
  - destruct (body x {| world := w; trace := trace s ++ [ev1] |})
      as [rb s2] eqn:Hb.
    destruct (Hlast x _ _ _ Hb) as (new & Hnew & Hraised).
    destruct (Hcalls x _ _ _ Hb) as (evs & Hevs & HP).
    cbn [trace] in Hnew, Hevs.
    assert (evs = new) as ->
      by (apply (app_inv_head (trace s ++ [ev1])); congruence).
    intros H. right. exists x, w, rb, s2, new.
    assert (Hflag : raised_in new = match rb with inl _ => true | inr _ => false end).
    { unfold raised_in. rewrite Hraised. now destruct rb. }
    assert (G : forall b rx s3,
              b = raised_in new -> call (evx b) (opx b) s2 = (rx, s3) ->
              trace s3 = trace s ++ ev1 :: new ++ evx (raised_in new) :: raised_by rx).
    { intros b rx s3 -> Hc. apply call_trace in Hc.
      rewrite Hc, Hnew, <- !app_assoc. reflexivity. }
    destruct rb as [e|a].
    + destruct (call (evx true) (opx true) s2) as [rx s3] eqn:Hc.
      exists rx. repeat (split; [assumption || reflexivity|]).
      replace s' with s3 by (destruct rx; now inversion H).
      now apply (G true).
    + destruct (call (evx false) (opx false) s2) as [rx s3] eqn:Hc.
      exists rx. repeat (split; [assumption || reflexivity|]).
      replace s' with s3 by (destruct rx; now inversion H).
      now apply (G false).
Qed.

Variable E : Engine W.
Variable cs : string.

Ltac no_catch :=
  repeat first
    [ apply raises_last_with | apply raises_last_bind | apply raises_last_call
    | apply raises_last_lift | apply raises_last_read
    | apply raises_last_ret | apply raises_last_raise | discriminate
    | match goal with
      | |- forall _, _ => intro
      | |- raises_last (if ?b then _ else _) => destruct b
      | |- raises_last (match ?x with _ => _ end) => destruct x
      end ].

Ltac only_calls :=
  repeat first
    [ apply calls_only_with | apply calls_only_bind | apply calls_only_call
    | apply calls_only_lift | apply calls_only_read
    | apply calls_only_ret | apply calls_only_raise | reflexivity
    | match goal with
      | |- forall _, _ => intro
      | |- calls_only _ (if ?b then _ else _) => destruct b
      | |- calls_only _ (match ?x with _ => _ end) => destruct x
      end ].

(** X9: [execute_query] leaves every block it enters.  A connection that
    opened is left exactly once, with a rollback exactly when an exception
    was raised inside the block and with a commit otherwise; a cursor that
    opened is closed exactly once, before the connection block is left.  A
    connection that did not open is never left: nothing follows the failed
    call. *)
Theorem blocks_are_left (query : pyval) (s : state W) :
  let s' := snd (execute_query E cs query s) in
  (forall e w1,
     pg_connect E cs (world s) = (inl e, w1) ->
     trace s' = trace s ++ [EvConnect cs; EvRaised e])
  /\ (forall w1,
        pg_connect E cs (world s) = (inr tt, w1) ->
        exists inside tail,
          trace s' = trace s ++ EvConnect cs :: inside
                     ++ EvConnExit (raised_in inside) :: tail
          /\ count is_conn_exit inside = 0%nat
          /\ count is_conn_exit tail = 0%nat
          /\ (forall e w2,
                pg_cursor E w1 = (inl e, w2) -> inside = [EvCursor; EvRaised e])
          /\ (forall w2,
                pg_cursor E w1 = (inr tt, w2) ->
                exists work tail',
                  inside = EvCursor :: work ++ EvCursorExit :: tail'
                  /\ count is_cursor_exit work = 0%nat
                  /\ count is_cursor_exit tail' = 0%nat)).
Proof.
  cbn zeta. unfold execute_query, try_except.
  destruct (execute_query_body E cs query s) as [r s'] eqn:H.
  assert (Hs' : snd (match r with
                     | inl e => (execute_query_handler e, s')
                     | inr a => (a, s')
                     end) = s') by now destruct r.
  rewrite Hs'. clear Hs'. unfold execute_query_body in H.
  apply (with_trace _ _ _ _ _ (fun ev => negb (is_conn_exit ev))) in H;
    [| intros _; no_catch | intros _; only_calls].
  destruct H as [(e & w & Hc & Ht)
                | (x & w & rb & s2 & inside & rx & Hc & Hb & Hin & HP & Ht)].
  - split; [intros e' w1 Hc'; congruence | intros w1 Hc'; congruence].
  - split; [intros e' w1 Hc'; congruence|]. intros w1 Hc'.
    assert (w = w1) by congruence. subst w1. clear Hc'.
    exists inside, (raised_by rx). split; [exact Ht|].
    split; [now apply count_none|]. split; [now destruct rx|].
    apply (with_trace _ _ (fun _ => EvCursorExit) (fun _ => pg_cursor_exit E)
             _ (fun ev => negb (is_cursor_exit ev))) in Hb;
      [| intros _; no_catch | intros _; only_calls].
    cbn [world trace] in Hb.
    destruct Hb as [(e & w2 & Hcur & Ht2)
                   | (y & w2 & rb2 & s3 & work & ry & Hcur & _ & _ & HP2 & Ht2)];
      rewrite Hin in Ht2; apply app_inv_head in Ht2; subst inside.
    + split; [intros e' w2' Hcur'; congruence | intros w2' Hcur'; congruence].
    + split; [intros e' w2' Hcur'; congruence|]. intros w2' _.
      exists work, (raised_by ry). split; [reflexivity|].
      split; [now apply count_none | now destruct ry].
Qed.

End BlockFacts.

(** ** The keyword test of lines 29 and 43 *)

Section KeywordFacts.

Import PyStr.

Lemma isspace_upper_char (c : ascii) : isspace (upper_char c) = isspace c.
Proof. destruct c as [[] [] [] [] [] [] [] []]; reflexivity. Qed.

Lemma upper_char_idem (c : ascii) : upper_char (upper_char c) = upper_char c.
Proof. destruct c as [[] [] [] [] [] [] [] []]; reflexivity. Qed.

Lemma upper_idem (s : string) : upper (upper s) = upper s.
Proof.
  induction s as [|c s IH]; simpl; [reflexivity|].
  now rewrite upper_char_idem, IH.
Qed.

Lemma upper_app (a b : string) : upper (a ++ b) = (upper a ++ upper b)%string.
Proof. induction a as [|c a IH]; simpl; [reflexivity | now rewrite IH]. Qed.

Lemma upper_lstrip (s : string) : upper (lstrip s) = lstrip (upper s).
Proof.
  induction s as [|c s IH]; simpl; [reflexivity|].
  rewrite isspace_upper_char. now destruct (isspace c).
Qed.

Lemma upper_rstrip (s : string) : upper (rstrip s) = rstrip (upper s).
Proof.
  induction s as [|c s IH]; simpl; [reflexivity|].
  rewrite <- IH, isspace_upper_char.
  destruct (rstrip s); simpl; [now destruct (isspace c) | reflexivity].
Qed.

Lemma upper_strip (s : string) : upper (strip s) = strip (upper s).
Proof. unfold strip. now rewrite upper_rstrip, upper_lstrip. Qed.

Lemma lstrip_spaces (ws s : string) :
  all_space ws = true -> lstrip (ws ++ s) = lstrip s.
Proof.
  induction ws as [|c ws IH]; simpl; intros H; [reflexivity|].
  apply andb_true_iff in H as [-> H]. now apply IH.
Qed.

Lemma rstrip_all_space (ws : string) : all_space ws = true -> rstrip ws = EmptyString.
Proof.
  induction ws as [|c ws IH]; simpl; intros H; [reflexivity|].
  apply andb_true_iff in H as [-> H]. now rewrite IH.
Qed.

Lemma rstrip_spaces (s ws : string) :
  all_space ws = true -> rstrip (s ++ ws) = rstrip s.
Proof.
  intros H. induction s as [|c s IH]; simpl.
  - now apply rstrip_all_space.
  - now rewrite IH.
Qed.

Lemma lstrip_app (s t : string) :
  lstrip (s ++ t) = if all_space s then lstrip t else (lstrip s ++ t)%string.
Proof.
  induction s as [|c s IH]; simpl; [reflexivity|].
  destruct (isspace c); simpl; [exact IH | reflexivity].
Qed.

Lemma lstrip_all_space (s : string) : all_space s = true -> lstrip s = EmptyString.
Proof.
  induction s as [|c s IH]; simpl; intros H; [reflexivity|].
  apply andb_true_iff in H as [-> H]. now apply IH.
Qed.

Lemma strip_spaces (ws1 s ws2 : string) :
  all_space ws1 = true -> all_space ws2 = true ->
  strip (ws1 ++ s ++ ws2) = strip s.
Proof.
  intros H1 H2. unfold strip. rewrite (lstrip_spaces _ _ H1), lstrip_app.
  destruct (all_space s) eqn:Hs.
  - now rewrite (lstrip_all_space _ H2), (lstrip_all_space _ Hs).
  - now apply rstrip_spaces.
Qed.

(** X10: the keyword test reads neither the case of the letters nor the
    spaces around the statement: two statements that differ in the case of
    their letters only, and a statement with spaces, tabs or line breaks
    put before and after it, are classified alike. *)
Theorem keyword_test_ignores_case_and_spaces (q kw : string) :
  (forall q', upper q' = upper q -> leading_keyword q' kw = leading_keyword q kw)
  /\ (forall ws1 ws2,
        all_space ws1 = true -> all_space ws2 = true ->
        leading_keyword (ws1 ++ q ++ ws2) kw = leading_keyword q kw).
Proof.
  unfold leading_keyword. split.
  - intros q' H. now rewrite !upper_strip, H.
  - intros ws1 ws2 H1 H2. now rewrite (strip_spaces _ _ _ H1 H2).
Qed.

Lemma rstrip_app_prefix (s t : string) :
  exists u, rstrip (s ++ t) = (rstrip s ++ u)%string.
Proof.
  induction s as [|c s [u IH]]; simpl.
  - now exists (rstrip t).
  - rewrite IH. destruct (rstrip s) as [|c' r]; simpl.
    + destruct u as [|cu u].
      * destruct (isspace c); [now exists EmptyString | now exists EmptyString].
      * destruct (isspace c); [now eexists | now eexists].
    + now exists u.
Qed.

Lemma prefix_app (p a u : string) :
  String.prefix p a = true -> String.prefix p (a ++ u) = true.
Proof.
  revert a. induction p as [|c p IH]; intros a H;
    [now destruct (a ++ u)%string|].
  destruct a as [|c' a]; [discriminate|].
  simpl append. rewrite prefix_cons in *.
  destruct (ascii_dec c c'); [now apply IH | discriminate].
Qed.

(** X11: the keyword test is a test on the start of the statement and on
    nothing after it: whatever is appended to a statement that passes for a
    keyword, the longer statement passes for the same keyword.  A keyword
    followed by further statements, or run together with other letters, is
    classified by the keyword. *)
Theorem keyword_test_reads_the_start_only (q kw rest : string) :
  kw <> EmptyString ->
  leading_keyword q kw = true ->
  leading_keyword (q ++ rest) kw = true.
Proof.
  unfold leading_keyword, startswith, strip. intros Hkw H.
  rewrite lstrip_app. destruct (all_space q) eqn:Hs.
  - rewrite (lstrip_all_space _ Hs) in H. simpl in H.
    destruct kw; [now contradiction Hkw | discriminate].
  - destruct (rstrip_app_prefix (lstrip q) rest) as [u ->].
    rewrite upper_app. now apply prefix_app.
Qed.

End KeywordFacts.

Lemma keyword_test_reads_the_start_only_witness :
  leading_keyword "select 1; DROP TABLE users" "SELECT" = true
  /\ leading_keyword "UPDATEd" "UPDATE" = true.
Proof.
  split.
  - apply (keyword_test_reads_the_start_only "select 1" "SELECT"
             "; DROP TABLE users"); [discriminate | reflexivity].
  - apply (keyword_test_reads_the_start_only "UPDATE" "UPDATE" "d");
      [discriminate | reflexivity].
Defined.

(** ** More on _handle_tool_calls *)

Section GatewayEdgeFacts.

Context {W : Type}.
Variable E : Engine W.
Variable cs : string.
Variable json_loads : string -> res pyval.

Lemma loop_ignores_other_tools (tcs : list ToolCall) :
  forall (acc : list ToolOutput) (s : state W),
    handle_tool_calls_loop E cs json_loads tcs acc s
    = handle_tool_calls_loop E cs json_loads (filter is_db_call tcs) acc s.
Proof.
  induction tcs as [|tc tcs IH]; intros acc s; [reflexivity|].
  cbn [filter]. unfold is_db_call at 1.
  destruct (String.eqb (tc_name tc) "db_call") eqn:Hname.
  - cbn [handle_tool_calls_loop]. rewrite Hname. unfold bind.
    destruct (handle_db_call E cs json_loads tc s) as [[e|o] s1];
      [reflexivity | apply IH].
  - cbn [handle_tool_calls_loop]. rewrite Hname. apply IH.
Qed.

(** X12: requests that name another tool than db_call count for nothing:
    the outputs, the calls on the database, the exception if any and the
    world left behind are those of the db_call requests alone.  The
    arguments of the other requests are never read, so that malformed ones
    do no harm; a batch without a db_call request returns no output and
    touches nothing. *)
Theorem handle_tool_calls_ignores_other_tools (tcs : list ToolCall) (s : state W) :
  _handle_tool_calls E cs json_loads tcs s
  = _handle_tool_calls E cs json_loads (filter is_db_call tcs) s
  /\ (filter is_db_call tcs = [] ->
      _handle_tool_calls E cs json_loads tcs s = (inr [], s)).
Proof.
  unfold _handle_tool_calls. split.
  - apply loop_ignores_other_tools.
  - intros H. now rewrite loop_ignores_other_tools, H.
Qed.

(** X13: a "query" that is there but is neither a str nor a list (a
    number, a boolean, null, an object) is not replaced by the default; the
    log line of [db_call] slices it and raises.  The exception leaves the
    gateway before any call on the database for this request, and the
    outputs gathered so far for earlier requests are lost with it.  For
    null, a boolean and an integer it is the TypeError
    "'<type>' object is not subscriptable". *)
Theorem unsliceable_query_fails_the_batch (tc : ToolCall) (d : pydict)
    (v : pyval) (rest : list ToolCall) (acc : list ToolOutput) (s : state W) :
  is_db_call tc = true ->
  json_loads (tc_arguments tc) = inr (VDict d) ->
  PyDict.get d "query" = Some v ->
  (forall q, v <> VStr q) ->
  (forall l, v <> VList l) ->
  exists e,
    handle_tool_calls_loop E cs json_loads (tc :: rest) acc s
    = (inl e, {| world := world s; trace := trace s ++ [EvRaised e] |})
    /\ (v = VNone ->
        e = PyException "TypeError" "'NoneType' object is not subscriptable")
    /\ (forall b, v = VBool b ->
        e = PyException "TypeError" "'bool' object is not subscriptable")
    /\ (forall n, v = VInt n ->
        e = PyException "TypeError" "'int' object is not subscriptable").
Proof.
  intros Hname Hl Hq Hstr Hlist.
  assert (Hslice : exists e,
            slice100 v = inl e
            /\ (v = VNone ->
                e = PyException "TypeError" "'NoneType' object is not subscriptable")
            /\ (forall b, v = VBool b ->
                e = PyException "TypeError" "'bool' object is not subscriptable")
            /\ (forall n, v = VInt n ->
                e = PyException "TypeError" "'int' object is not subscriptable")).
  { destruct v as [|b|n|q|l|d'|cls];
      try (eexists; split; [reflexivity|]; repeat split; intros;
           (reflexivity || discriminate)).
    - now contradiction (Hstr q).
    - now contradiction (Hlist l). }
  destruct Hslice as (e & Hslice & Htext). exists e. split; [|exact Htext].
  cbn [handle_tool_calls_loop]. unfold is_db_call in Hname. rewrite Hname.
  unfold handle_db_call. rewrite Hl. unfold bind at 1, bind at 1.
  cbn [lift ret get_query]. rewrite Hq. unfold bind at 1. cbn [lift ret].
  unfold bind at 1, db_call, bind at 1. rewrite Hslice. reflexivity.
Qed.

End GatewayEdgeFacts.

Lemma unsliceable_query_fails_the_batch_witness :
  exists e,
    fst (Sample.handle
           [Sample.call_select;
            {| tc_id := "call_6"; tc_name := "db_call";
               tc_arguments := ("{" ++ Json.encode_str "query" ++ ": 5}")%string |}]
           Sample.db0)
    = inl e
    /\ e = PyException "TypeError" "'int' object is not subscriptable".
Proof.
  pose (tc := {| tc_id := "call_6"; tc_name := "db_call";
                 tc_arguments := ("{" ++ Json.encode_str "query" ++ ": 5}")%string |}).
  pose (p := handle_db_call Sample.engine "dsn" Sample.loads Sample.call_select
               Sample.db0).
  assert (Hfst : exists o, fst p = inr o) by (eexists; vm_compute; reflexivity).
  destruct Hfst as [o Hfst].
  destruct (unsliceable_query_fails_the_batch Sample.engine "dsn" Sample.loads
              tc [("query", VInt 5)] (VInt 5) [] [o] (snd p)
              eq_refl eq_refl eq_refl
              (fun q H => eq_ind (VInt 5)
                            (fun x => match x with VInt _ => True | _ => False end)
                            I (VStr q) H)
              (fun l H => eq_ind (VInt 5)
                            (fun x => match x with VInt _ => True | _ => False end)
                            I (VList l) H))
    as (e & Hloop & _ & _ & He).
  assert (Hstep : Sample.handle [Sample.call_select; tc] Sample.db0
                  = handle_tool_calls_loop Sample.engine "dsn" Sample.loads
                      [tc] [o] (snd p)).
  { unfold Sample.handle, _handle_tool_calls.
    change (handle_tool_calls_loop Sample.engine "dsn" Sample.loads
              [Sample.call_select; tc] [] Sample.db0)
      with (bind (handle_db_call Sample.engine "dsn" Sample.loads Sample.call_select)
                 (fun out => handle_tool_calls_loop Sample.engine "dsn"
                               Sample.loads [tc] ([] ++ [out]))
                 Sample.db0).
    unfold bind at 1. fold p. rewrite (pair_eta p _ Hfst). reflexivity. }
  exists e. split; [|exact (He 5%Z eq_refl)].
  fold tc. rewrite Hstep, Hloop. reflexivity.
Defined.

(** ** The calls of a turn *)

Section TurnFacts.

Context {W : Type}.
Variable E : Engine W.
Variable cs : string.
Variable A : AgentService W.
Variable json_loads : string -> res pyval.
Variable agent : string.

Lemma count_app (p : event -> bool) (a b : list event) :
  count p (a ++ b) = (count p a + count p b)%nat.
Proof. unfold count. now rewrite filter_app, length_app. Qed.

Lemma count_db_events (p : event -> bool) (evs : list event) :
  (forall ev, is_db_event ev = true -> p ev = false) ->
  forallb is_db_event evs = true -> count p evs = 0%nat.
Proof.
  intros Hp H. apply count_none.
  apply forallb_forall. intros ev Hin.
  rewrite forallb_forall in H. now rewrite (Hp ev (H ev Hin)).
Qed.

(** The calls of one turn of the loop: one sleep, one fetch of the run, and
    at most one submission, after the fetch; the rest are calls of the
    gateway on the database. *)
Lemma poll_once_paced (thread : string) (run : ThreadRun) (s s' : state W)
    (r : res ThreadRun) :
  poll_once E cs A json_loads thread run s = (r, s') ->
  exists evs,
    trace s' = trace s ++ evs
    /\ forallb is_poll_event evs = true
    /\ count is_sleep evs = 1%nat
    /\ count is_get_run evs = 1%nat
    /\ (count is_submit evs <= 1)%nat
    /\ hd_error evs = Some EvSleep.
Proof.
  unfold poll_once, sleep. unfold bind at 1, call at 1. cbn [world trace raised_by].
  unfold bind at 1, call at 1. cbn [world trace].
  destruct (get_run A thread (run_id run) (world s)) as [[e|run'] w1];
    cbn [raised_by].
  - intros H. inversion H; subst. cbn [trace].
    exists [EvSleep; EvGetRun thread (run_id run); EvRaised e].
    rewrite <- app_assoc. repeat split. cbn. lia.
  - destruct (RunStatus_eqb (run_status run') REQUIRES_ACTION).
    + destruct (run_tool_calls run') as [tcs|]; unfold bind at 1; cbn [lift ret raise].
      * unfold bind at 1.
        destruct (_handle_tool_calls E cs json_loads tcs _) as [[e|outs] sh] eqn:Hh;
          destruct (handle_tool_calls_loop_calls E cs json_loads tcs [] _ _ _ Hh)
            as (dbevs & Ht & Hdb); cbn [trace] in Ht.
        -- intros H. inversion H; subst.
           exists ([EvSleep; EvGetRun thread (run_id run)] ++ dbevs).
           rewrite Ht, <- !app_assoc. split; [reflexivity|].
           rewrite forallb_app, !count_app.
           rewrite !(count_db_events _ dbevs) by (assumption || now intros []).
           split; [cbn; apply forallb_forall; intros ev Hin;
                   rewrite forallb_forall in Hdb; unfold is_poll_event;
                   now rewrite (Hdb ev Hin)|].
           cbn. repeat split; lia.
        -- unfold call.
           destruct (submit_tool_outputs_to_run A thread (run_id run') outs (world sh))
             as [rs ws].
           intros H. inversion H; subst. cbn [trace].
           exists ([EvSleep; EvGetRun thread (run_id run)] ++ dbevs
                   ++ EvSubmit thread (run_id run') outs :: raised_by r).
           rewrite Ht, <- !app_assoc. split; [reflexivity|].
           rewrite !forallb_app, !count_app.
           rewrite !(count_db_events _ dbevs) by (assumption || now intros []).
           split.
           ++ cbn. rewrite andb_true_iff. split.
              ** apply forallb_forall. intros ev Hin.
                 rewrite forallb_forall in Hdb. unfold is_poll_event.
                 now rewrite (Hdb ev Hin).
              ** now destruct r.
           ++ destruct r; cbn; repeat split; lia.
      * intros H. inversion H; subst. cbn [trace log].
        eexists. rewrite <- !app_assoc. split; [reflexivity|].
        cbn. repeat split; lia.
    + intros H. inversion H; subst. cbn [trace].
      exists [EvSleep; EvGetRun thread (run_id run)].
      rewrite <- app_assoc. repeat split. cbn. lia.
Qed.

(** The calls of the loop: as many fetches of the run as sleeps, never more
    submissions than fetches. *)
Lemma poll_paced (fuel : nat) (thread : string) :
  forall (run : ThreadRun) (s s' : state W) (r : res (option ThreadRun)),
    poll E cs A json_loads fuel thread run s = (r, s') ->
    exists evs,
      trace s' = trace s ++ evs
      /\ forallb is_poll_event evs = true
      /\ count is_sleep evs = count is_get_run evs
      /\ (count is_submit evs <= count is_get_run evs)%nat
      /\ (forall e, hd_error evs <> Some (EvRaised e)).
Proof.
  induction fuel as [|fuel IH]; intros run s s' r H; simpl in H.
  - exists []. rewrite app_nil_r.
    destruct (active (run_status run)); inversion H; subst;
      repeat split; cbn; (lia || discriminate).
  - destruct (active (run_status run)).
    2:{ inversion H; subst. exists []. rewrite app_nil_r.
        repeat split; cbn; (lia || discriminate). }
    unfold bind in H.
    destruct (poll_once E cs A json_loads thread run s) as [[e|run1] s1] eqn:H1;
      destruct (poll_once_paced _ _ _ _ _ H1)
        as (evs1 & Ht1 & Hp1 & Hs1 & Hg1 & Hu1 & Hh1).
    + inversion H; subst. exists evs1.
      repeat split; try assumption; try lia. intros e'. now rewrite Hh1.
    + destruct (IH _ _ _ _ H) as (evs2 & Ht2 & Hp2 & Hs2 & Hu2 & _).
      exists (evs1 ++ evs2). rewrite Ht2, Ht1, <- app_assoc.
      rewrite forallb_app, !count_app, Hp1, Hp2.
      repeat split; try lia. intros e'.
      destruct evs1; [discriminate|]. cbn in *. now rewrite Hh1.
Qed.

(** The calls after the loop: at most one listing of the messages. *)
Lemma final_answer_calls (thread : string) (run : ThreadRun) (s s' : state W)
    (r : res string) :
  final_answer A thread run s = (r, s') ->
  exists evs,
    trace s' = trace s ++ evs
    /\ forallb (fun ev => negb (is_poll_event ev && negb (is_db_event ev))
                          && negb (is_setup ev)) evs = true
    /\ (count is_list_messages evs <= 1)%nat
    /\ (forall e, hd_error evs <> Some (EvRaised e)).
Proof.
  unfold final_answer.
  destruct (RunStatus_eqb (run_status run) COMPLETED).
  - unfold bind, call.
    destruct (list_messages A thread (world s)) as [[e|messages] w1];
      cbn [raised_by].
    + intros H. inversion H; subst. cbn [trace].
      exists [EvListMessages thread; EvRaised e]. repeat split; cbn; (lia || discriminate).
    + destruct (latest_assistant_text messages) as [e|text];
        unfold lift, raise, ret, log;
        intros H; inversion H; subst; cbn [trace world].
      * exists [EvListMessages thread; EvRaised e].
        rewrite <- app_assoc. repeat split; cbn; (lia || discriminate).
      * exists [EvListMessages thread]. repeat split; cbn; (lia || discriminate).
  - intros H. inversion H; subst. exists []. rewrite app_nil_r.
    repeat split; cbn; (lia || discriminate).
Qed.


(** X15: the loop is paced.  Among the calls of a turn there are exactly as
    many fetches of the run as sleeps of one second, and no more
    submissions of tool outputs than fetches. *)
Theorem turn_is_paced (fuel : nat) (msg : string) (s : state W) :
  exists new,
    trace (snd (chat_with_master_agent E cs A json_loads agent fuel msg s))
    = trace s ++ new
    /\ count is_sleep new = count is_get_run new
    /\ (count is_submit new <= count is_get_run new)%nat.
Proof.
  unfold chat_with_master_agent, try_except.
  destruct (chat_body E cs A json_loads agent fuel msg s) as [r s'] eqn:H.
  assert (Hs' : snd (match r with
                     | inl e => (Some ("Error: " ++ exn_str e)%string, s')
                     | inr a => (a, s')
                     end) = s') by now destruct r.
  rewrite Hs'. clear Hs'. unfold chat_body in H.
  unfold bind at 1, call at 1 in H.
  destruct (create_thread A (world s)) as [[e|thread] w1]; cbn [raised_by] in H.
  { inversion H; subst. cbn [trace]. eexists. split; [reflexivity|]. cbn. lia. }
  unfold bind at 1, call at 1 in H. cbn [world trace] in H.
  destruct (create_message A thread "user" msg w1) as [[e|[]] w2];
    cbn [raised_by] in H.
  { inversion H; subst. cbn [trace]. eexists.
    rewrite <- app_assoc. split; [reflexivity|]. cbn. lia. }
  unfold bind at 1, call at 1 in H. cbn [world trace] in H.
  destruct (create_run A thread agent register_tools w2) as [[e|run] w3];
    cbn [raised_by] in H.
  { inversion H; subst. cbn [trace]. eexists.
    rewrite <- !app_assoc. split; [reflexivity|]. cbn. lia. }
  unfold bind at 1 in H.
  destruct (poll E cs A json_loads fuel thread run _) as [rp sp] eqn:Hp.
  destruct (poll_paced _ _ _ _ _ _ Hp) as (evs1 & Ht1 & _ & Hs1 & Hu1 & _).
  cbn [trace] in Ht1.
  assert (Hshape : forall evs2,
            trace s' = trace sp ++ evs2 ->
            count is_sleep evs2 = 0%nat -> count is_get_run evs2 = 0%nat ->
            count is_submit evs2 = 0%nat ->
            exists new,
              trace s' = trace s ++ new
              /\ count is_sleep new = count is_get_run new
              /\ (count is_submit new <= count is_get_run new)%nat).
  { intros evs2 Ht2 H1 H2 H3.
    exists ([EvCreateThread; EvCreateMessage thread "user" msg;
             EvCreateRun thread agent] ++ evs1 ++ evs2).
    rewrite Ht2, Ht1, <- !app_assoc, !count_app, H1, H2, H3.
    split; [reflexivity|]. cbn. lia. }
  destruct rp as [e|[run'|]].
  - inversion H; subst. now apply (Hshape []); [rewrite app_nil_r|..].
  - unfold bind in H.
    destruct (final_answer A thread run' sp) as [rf sf] eqn:Hf.
    destruct (final_answer_calls _ _ _ _ _ Hf) as (evs2 & Ht2 & HP2 & _ & _).
    assert (s' = sf) as -> by (destruct rf; now inversion H).
    assert (Hnone : forall p, (forall ev, p ev = true ->
                                 is_poll_event ev && negb (is_db_event ev) = true) ->
                              count p evs2 = 0%nat).
    { intros p Hpq. apply count_none, forallb_forall. intros ev Hin.
      rewrite forallb_forall in HP2. specialize (HP2 ev Hin).
      apply andb_true_iff in HP2 as [HP2 _].
      destruct (p ev) eqn:Hpev; [|reflexivity].
      rewrite (Hpq ev Hpev) in HP2. discriminate. }
    apply (Hshape evs2); [exact Ht2 | | |]; apply Hnone; now intros [].
  - inversion H; subst. now apply (Hshape []); [rewrite app_nil_r|..].
Qed.

End TurnFacts.

(** ** The chat page *)

Section ChatbotAppFacts.

Context {W : Type}.
Variable E : Engine W.
Variable cs : string.
Variable A : AgentService W.
Variable json_loads : string -> res pyval.
Variable agent : string.
Variable St : Streamlit W.

Ltac innermost x :=
  lazymatch x with
  | context [match ?y with _ => _ end] => innermost y
  | _ => destruct x eqn:?
  end.

(** One step through the code: the next call is answered. *)
Ltac step :=
  match goal with
  | |- context [match ?x with _ => _ end] => innermost x
  end;
  cbn [session screen lib world trace ss_messages ss_user_input set_messages
       set_user_input].

Ltac unfold_app :=
  unfold _handle_user_input, append_message, in_chat_message, in_spinner,
    markdown, app_with, app_try, app_bind, app_ret, session_attr,
    update_session, ui, on_lib.

(** X16: [_handle_user_input] only adds to the history.  Where
    [st.session_state.messages] is set, a call that comes back, returning
    or raising, leaves the earlier entries as they were, followed by the
    message of the user and by at most one entry of the assistant; the
    pending example [user_input] is not touched.  A call that returns has
    added both entries. *)
Theorem handle_user_input_grows_history (fuel : nat) (u : string)
    (a a' : app_state W) (r : res unit) (ms : list ChatMessage) :
  ss_messages (session a) = Some ms ->
  _handle_user_input E cs A json_loads agent St fuel u a = Some (r, a') ->
  exists tail,
    ss_messages (session a')
    = Some (ms ++ {| chat_role := "user"; chat_content := u |} :: tail)
    /\ ss_user_input (session a') = ss_user_input (session a)
    /\ (tail = [] \/ exists text,
          tail = [{| chat_role := "assistant"; chat_content := text |}])
    /\ (r = inr tt -> tail <> []).
Proof.
  intros Hms. unfold_app. rewrite Hms. cbn [session screen lib world trace].
  repeat step.
  all: intros H; inversion H; subst; clear H; cbn.
  all: first
    [ exists []; split; [reflexivity|]; split; [reflexivity|];
      split; [now left | intros H; discriminate H]
    | rewrite <- app_assoc; eexists [_]; split; [reflexivity|];
      split; [reflexivity|];
      split; [right; eexists; reflexivity | intros _; discriminate] ].
Qed.

(** X17: the handler of line 128 runs for one reason only.  [st.error] is
    called by [_handle_user_input] only after [st.markdown] has raised on
    the answer of [chat_with_master_agent], and with the text of that
    exception: a failure of the agent or of the database never reaches it,
    since [chat_with_master_agent] returns such a failure as its answer. *)
Theorem error_is_shown_for_a_display_failure_only (fuel : nat) (u : string)
    (a a' : app_state W) (r : res unit) :
  _handle_user_input E cs A json_loads agent St fuel u a = Some (r, a') ->
  exists new,
    screen a' = screen a ++ new
    /\ forall t,
         In (UiError t) new ->
         exists l response w e,
           fst (chat_with_master_agent E cs A json_loads agent fuel u l)
           = Some response
           /\ In (UiMarkdown response) new
           /\ fst (st_markdown St response w) = inl e
           /\ t = ("Sorry, I encountered an error: " ++ exn_str e)%string.
Proof.
  unfold_app. cbn [session screen lib world trace].
  repeat step.
  all: intros H; inversion H; subst; clear H; cbn [screen].
  all: rewrite <- ?app_assoc;
    first [ exists []; rewrite app_nil_r; split; [reflexivity|]
          | eexists; split; [reflexivity|] ].
  all: cbn; intros t Hin.
  all: repeat match type of Hin with
              | _ \/ _ => destruct Hin as [Hin|Hin]
              | False => contradiction
              | _ = _ => try discriminate Hin
              end.
  all: inversion Hin; subst.
  all: match goal with
       | Hc : chat_with_master_agent _ _ _ _ _ _ _ ?l = (Some ?resp, _),
         Hm : st_markdown St ?resp ?w = (inl ?e, _) |- _ =>
           exists l, resp, w, e; rewrite Hc, Hm;
           repeat split; cbn; auto 10
       end.
Qed.

Hypothesis front_end : ui_returns St.

(** On a front end that does not fail, a turn that comes back has returned:
    the history has the question and the answer of the agent, and the screen
    the two of them. *)
Lemma handle_user_input_returns (fuel : nat) (u : string) (a a' : app_state W)
    (r : res unit) (ms : list ChatMessage) :
  ss_messages (session a) = Some ms ->
  _handle_user_input E cs A json_loads agent St fuel u a = Some (r, a') ->
  r = inr tt
  /\ exists response,
       session a'
       = set_messages (ms ++ [{| chat_role := "user"; chat_content := u |};
                              {| chat_role := "assistant";
                                 chat_content := response |}]) (session a)
       /\ screen a'
          = screen a ++ [UiChatMessage "user"; UiMarkdown u; UiChatMessageExit;
                         UiChatMessage "assistant"; UiSpinner "Thinking...";
                         UiMarkdown response; UiSpinnerExit; UiChatMessageExit].
Proof.
  destruct front_end as (_ & Hcm & Hcx & Hsp & Hsx & Hmd & _ & _).
  intros Hms. unfold_app. rewrite Hms. cbn [session screen lib world trace].
  repeat step.
  all: try match goal with
           | H : st_chat_message St ?n ?w = (inl _, _) |- _ =>
               specialize (Hcm n w); rewrite H in Hcm; discriminate Hcm
           | H : st_chat_message_exit St ?w = (inl _, _) |- _ =>
               specialize (Hcx w); rewrite H in Hcx; discriminate Hcx
           | H : st_spinner St ?n ?w = (inl _, _) |- _ =>
               specialize (Hsp n w); rewrite H in Hsp; discriminate Hsp
           | H : st_spinner_exit St ?w = (inl _, _) |- _ =>
               specialize (Hsx w); rewrite H in Hsx; discriminate Hsx
           | H : st_markdown St ?n ?w = (inl _, _) |- _ =>
               specialize (Hmd n w); rewrite H in Hmd; discriminate Hmd
           end.
  all: intros H; inversion H; subst; clear H; cbn [session screen].
  split; [reflexivity|]. eexists. unfold set_messages. cbn.
  rewrite <- !app_assoc. split; reflexivity.
Qed.

(** The calls that show one entry of the history. *)
Lemma chat_message_returns (name body : string) (a : app_state W) :
  exists a',
    in_chat_message St name (markdown St body) a = Some (inr tt, a')
    /\ session a' = session a
    /\ screen a' = screen a ++ [UiChatMessage name; UiMarkdown body;
                                UiChatMessageExit].
Proof.
  destruct front_end as (_ & Hcm & Hcx & _ & _ & Hmd & _ & _).
  unfold_app. cbn [session screen lib world trace].
  pose proof (Hcm name (world (lib a))) as H1.
  destruct (st_chat_message St name (world (lib a))) as [r1 w1].
  cbn in H1. subst r1. cbn [session screen lib world trace].
  pose proof (Hmd body w1) as H2.
  destruct (st_markdown St body w1) as [r2 w2].
  cbn in H2. subst r2. cbn [session screen lib world trace].
  pose proof (Hcx w2) as H3.
  destruct (st_chat_message_exit St w2) as [r3 w3].
  cbn in H3. subst r3. cbn [session screen lib world trace].
  eexists. split; [reflexivity|]. cbn [session screen].
  now rewrite <- !app_assoc.
Qed.

Lemma render_messages_returns (ms : list ChatMessage) :
  forall a : app_state W,
    exists a',
      render_messages St ms a = Some (inr tt, a')
      /\ session a' = session a
      /\ exists calls,
           screen a' = screen a ++ calls
           /\ bubbles None calls = ms /\ container None calls = None.
Proof.
  induction ms as [|m ms IH]; intros a; cbn [render_messages].
  - exists a. unfold app_ret. repeat split. exists []. now rewrite app_nil_r.
  - unfold app_bind.
    destruct (chat_message_returns (chat_role m) (chat_content m) a)
      as (a1 & -> & Hs1 & Hc1).
    destruct (IH a1) as (a' & Hr & Hs & calls & Hsc & Hb & Hc).
    exists a'. split; [exact Hr|]. split; [congruence|].
    exists ([UiChatMessage (chat_role m); UiMarkdown (chat_content m);
             UiChatMessageExit] ++ calls).
    rewrite Hsc, Hc1, <- !app_assoc.
    split; [reflexivity|]. cbn. rewrite Hb, Hc. now destruct m.
Qed.

Lemma bubbles_app (calls more : list ui_call) :
  forall cur,
    bubbles cur (calls ++ more)
    = bubbles cur calls ++ bubbles (container cur calls) more.
Proof.
  induction calls as [|c calls IH]; intros cur; [reflexivity|].
  destruct c; cbn; try apply IH. destruct cur; cbn; now rewrite IH.
Qed.

Lemma initialized_set (ss : SessionState) :
  exists before pending,
    ss_messages (initialized ss) = Some before
    /\ ss_user_input (initialized ss) = Some pending.
Proof.
  unfold initialized. destruct ss as [[ms|] [p|]]; cbn; eauto.
Qed.

(** A turn that is run under a condition. *)
Lemma optional_turn (cond : bool) (fuel : nat) (p : string)
    (a a' : app_state W) (r : res unit) (ms : list ChatMessage) :
  ss_messages (session a) = Some ms ->
  (if cond then _handle_user_input E cs A json_loads agent St fuel p
   else app_ret tt) a = Some (r, a') ->
  r = inr tt
  /\ ss_user_input (session a') = ss_user_input (session a)
  /\ exists turns calls,
       ss_messages (session a') = Some (ms ++ turns)
       /\ screen a' = screen a ++ calls
       /\ bubbles None calls = turns /\ container None calls = None
       /\ (cond = true ->
           exists answer,
             turns = [{| chat_role := "user"; chat_content := p |};
                      {| chat_role := "assistant"; chat_content := answer |}])
       /\ (cond = false -> turns = []).
Proof.
  intros Hms H. destruct cond.
  - apply (handle_user_input_returns _ _ _ _ _ ms Hms) in H
      as (-> & answer & Hs & Hc).
    split; [reflexivity|]. rewrite Hs, Hc. split; [reflexivity|].
    eexists _, _. split; [reflexivity|]. split; [reflexivity|].
    split; [reflexivity|]. split; [reflexivity|].
    split; [intros _; now exists answer | discriminate].
  - inversion H; subst. split; [reflexivity|]. split; [reflexivity|].
    exists [], []. rewrite !app_nil_r. repeat split; try assumption.
    discriminate.
Qed.

(** X18: the page shows the history.  On a front end whose calls all
    return, and on a session that [_initialize_session_state] has set up,
    a run of [_render_chat_interface] that comes back has returned; the
    chat messages it has put on the screen are exactly the entries of the
    history it leaves, in order; the history is the earlier one with the
    turns of this run after it; [user_input] is left empty; and a pending
    example is asked as the last turn of the run. *)
Theorem page_shows_the_history (fuel : nat) (ss : SessionState)
    (a a' : app_state W) (r : res unit) :
  session a = initialized ss ->
  _render_chat_interface E cs A json_loads agent St fuel a = Some (r, a') ->
  r = inr tt
  /\ exists before pending turns calls,
       ss_messages (session a) = Some before
       /\ ss_user_input (session a) = Some pending
       /\ ss_messages (session a') = Some (before ++ turns)
       /\ ss_user_input (session a') = Some EmptyString
       /\ screen a' = screen a ++ calls
       /\ bubbles None calls = before ++ turns
       /\ (truthy pending = true ->
           exists earlier answer,
             turns = earlier
                     ++ [{| chat_role := "user"; chat_content := pending |};
                         {| chat_role := "assistant"; chat_content := answer |}]).
Proof.
  intros Hs Hrun.
  destruct (initialized_set ss) as (before & pending & Hb & Hp).
  rewrite <- Hs in Hb, Hp.
  destruct front_end as (Hti & _ & _ & _ & _ & _ & _ & Hci).
  unfold _render_chat_interface in Hrun.
  (* the title *)
  unfold app_bind at 1, ui at 1 in Hrun.
  pose proof (Hti chat_title (world (lib a))) as H1.
  destruct (st_title St chat_title (world (lib a))) as [r1 w1].
  cbn in H1. subst r1.
  (* the history *)
  unfold app_bind at 1, session_attr at 1 in Hrun.
  cbn [session] in Hrun. rewrite Hb in Hrun.
  unfold app_bind at 1 in Hrun.
  match type of Hrun with
  | context [render_messages St before ?b] =>
      destruct (render_messages_returns before b)
        as (a2 & Hr & Hs2 & calls2 & Hsc2 & Hbub2 & Hcon2)
  end.
  rewrite Hr in Hrun. cbn [session screen] in Hs2, Hsc2.
  (* the chat input *)
  unfold app_bind at 1, ui at 1 in Hrun.
  destruct (Hci chat_placeholder (world (lib a2))) as [typed H3].
  destruct (st_chat_input St chat_placeholder (world (lib a2))) as [r3 w3].
  cbn in H3. subst r3.
  unfold app_bind at 1 in Hrun.
  set (a3 := {| session := session a2;
                screen := screen a2 ++ [UiChatInput chat_placeholder];
                lib := {| world := w3; trace := trace (lib a2) |} |}) in Hrun.
  destruct (match typed with
            | Some p =>
                if truthy p
                then _handle_user_input E cs A json_loads agent St fuel p
                else app_ret tt
            | None => app_ret tt
            end a3) as [[rt a4]|] eqn:Ht; [|discriminate Hrun].
  assert (Hturn : exists (cond : bool) p,
            (if cond then _handle_user_input E cs A json_loads agent St fuel p
             else app_ret tt)
              a3
            = Some (rt, a4)).
  { destruct typed as [p|]; [exists (truthy p), p | exists false, EmptyString];
      exact Ht. }
  clear Ht. destruct Hturn as (cond & p & Ht).
  apply (optional_turn _ _ _ _ _ _ before) in Ht;
    [|unfold a3; cbn [session]; congruence].
  destruct Ht as (-> & Hu4 & turns4 & calls4 & Hm4 & Hsc4 & Hbub4 & Hcon4 & _).
  unfold a3 in Hu4, Hsc4. cbn [session screen] in Hu4, Hsc4. clear a3.
  (* the example of the sidebar *)
  unfold app_bind at 1, session_attr at 1 in Hrun.
  assert (Hp4 : ss_user_input (session a4) = Some pending) by congruence.
  rewrite Hp4 in Hrun.
  split; [|exists before, pending].
  - destruct (truthy pending).
    + unfold app_bind at 1, session_attr at 1 in Hrun. rewrite Hp4 in Hrun.
      unfold app_bind at 1 in Hrun.
      destruct (_handle_user_input E cs A json_loads agent St fuel pending a4)
        as [[[e|[]] a5]|] eqn:H5; try discriminate Hrun.
      * apply (handle_user_input_returns _ _ _ _ _ _ Hm4) in H5 as [H5 _].
        discriminate H5.
      * now inversion Hrun.
    + now inversion Hrun.
  - destruct (truthy pending) eqn:Htruthy.
    + unfold app_bind at 1, session_attr at 1 in Hrun. rewrite Hp4 in Hrun.
      unfold app_bind at 1 in Hrun.
      destruct (_handle_user_input E cs A json_loads agent St fuel pending a4)
        as [[r5 a5]|] eqn:H5; [|discriminate Hrun].
      apply (handle_user_input_returns _ _ _ _ _ _ Hm4) in H5
        as (-> & answer & Hs5 & Hsc5).
      inversion Hrun; subst a'. cbn [session screen update_session].
      exists (turns4 ++ [{| chat_role := "user"; chat_content := pending |};
                         {| chat_role := "assistant"; chat_content := answer |}]).
      eexists. rewrite Hs5, Hsc5, Hsc4, Hsc2. cbn [ss_messages ss_user_input
        set_messages set_user_input]. rewrite <- !app_assoc.
      split; [exact Hb|]. split; [exact Hp|]. split; [reflexivity|].
      split; [reflexivity|]. split; [reflexivity|].
      split; [|intros _; now exists turns4, answer].
      cbn [app bubbles]. rewrite bubbles_app, Hbub2, Hcon2. cbn [bubbles].
      rewrite bubbles_app, Hbub4, Hcon4. reflexivity.
    + inversion Hrun; subst a'. exists turns4. eexists.
      rewrite Hsc4, Hsc2, <- !app_assoc.
      split; [exact Hb|]. split; [exact Hp|]. split; [exact Hm4|].
      split; [rewrite Hp4; destruct pending; [reflexivity|discriminate]|].
      split; [reflexivity|]. split; [|discriminate].
      cbn [app bubbles]. rewrite bubbles_app, Hbub2, Hcon2. cbn [bubbles].
      now rewrite Hbub4.
Qed.

End ChatbotAppFacts.

(** The sample front end never fails. *)
Lemma demo_front_end (typed : option string) : ui_returns (DemoApp.streamlit typed).
Proof.
  repeat split; intros; cbn; eauto.
Qed.

(** One turn and one run of the page, over the service that answers "42". *)
Lemma demo_turn_returns :
  exists x, _handle_user_input Sample.engine "dsn" Sample.service Sample.loads "agent_1"
      (DemoApp.streamlit None) 10 "test" DemoApp.app0 = Some x.
Proof. vm_compute. eexists. reflexivity. Qed.

Lemma demo_page_returns :
  exists x, _render_chat_interface Sample.engine "dsn" Sample.service Sample.loads
      "agent_1" (DemoApp.streamlit (Some "test")) 10 DemoApp.app0 = Some x.
Proof. vm_compute. eexists. reflexivity. Qed.

Lemma handle_user_input_grows_history_witness :
  exists r a' tail,
    _handle_user_input Sample.engine "dsn" Sample.service Sample.loads "agent_1"
      (DemoApp.streamlit None) 10 "test" DemoApp.app0 = Some (r, a')
    /\ ss_messages (session a')
       = Some ([{| chat_role := "assistant"; chat_content := greeting |}]
               ++ {| chat_role := "user"; chat_content := "test" |} :: tail).
Proof.
  destruct demo_turn_returns as [[r a'] Hp]. exists r, a'.
  destruct (handle_user_input_grows_history
              Sample.engine "dsn" Sample.service Sample.loads "agent_1"
              (DemoApp.streamlit None) 10 "test" DemoApp.app0 a' r
              [{| chat_role := "assistant"; chat_content := greeting |}]
              eq_refl Hp) as (tail & H1 & _).
  exists tail. split; [exact Hp | exact H1].
Defined.

Lemma error_is_shown_for_a_display_failure_only_witness :
  exists r a' new,
    _handle_user_input Sample.engine "dsn" Sample.service Sample.loads "agent_1"
      (DemoApp.streamlit None) 10 "test" DemoApp.app0 = Some (r, a')
    /\ screen a' = screen DemoApp.app0 ++ new.
Proof.
  destruct demo_turn_returns as [[r a'] Hp]. exists r, a'.
  destruct (error_is_shown_for_a_display_failure_only
              Sample.engine "dsn" Sample.service Sample.loads "agent_1"
              (DemoApp.streamlit None) 10 "test" DemoApp.app0 a' r Hp)
    as (new & H1 & _).
  exists new. split; [exact Hp | exact H1].
Defined.

Lemma page_shows_the_history_witness :
  exists r a',
    _render_chat_interface Sample.engine "dsn" Sample.service Sample.loads
      "agent_1" (DemoApp.streamlit (Some "test")) 10 DemoApp.app0 = Some (r, a')
    /\ r = inr tt.
Proof.
  destruct demo_page_returns as [[r a'] Hp]. exists r, a'. split; [exact Hp|].
  exact (proj1 (page_shows_the_history
                  Sample.engine "dsn" Sample.service Sample.loads "agent_1"
                  (DemoApp.streamlit (Some "test")) (demo_front_end _)
                  10 DemoApp.fresh DemoApp.app0 a' r eq_refl Hp)).
Defined.
